(** * projectile-motion: the projectile integrator and the tracer probe

    A shallow embedding of [js/common/model/Projectile.js] and
    [js/common/model/Tracer.js].  A JavaScript number is an IEEE 754 binary64
    value, which is what Rocq's primitive [float] is: [+], [-], [*], [/],
    [Math.sqrt], [<], [<=] and [===] on numbers are the primitive operations,
    with the same rounding, infinities and NaN. *)

From Stdlib Require Import Floats ZArith List Bool Lia.
Import ListNotations.
From Stdlib Require String.

Set Warnings "-inexact-float".
Open Scope float_scope.

(** ** The order of JavaScript numbers

    [<=] and [<] on numbers are decided through the specification of the
    primitive comparisons.  Every number that is not NaN is given a key, a
    triple of integers ordered lexicographically: the class (minus infinity,
    negative, zero, positive, plus infinity), then exponent and mantissa, both
    negated for a negative number. *)
Module Number.

Definition key3 : Type := (Z * Z * Z)%type.

Definition SFkey (f : spec_float) : key3 :=
  match f with
  | S754_zero _ => (0, 0, 0)%Z
  | S754_infinity true => (-2, 0, 0)%Z
  | S754_infinity false => (2, 0, 0)%Z
  | S754_nan => (0, 0, 0)%Z
  | S754_finite true m e => (-1, - e, Z.neg m)%Z
  | S754_finite false m e => (1, e, Z.pos m)%Z
  end.

Definition lt3 (a b : key3) : Prop :=
  let '(c1, e1, m1) := a in
  let '(c2, e2, m2) := b in
  (c1 < c2 \/ (c1 = c2 /\ (e1 < e2 \/ (e1 = e2 /\ m1 < m2))))%Z.

Definition le3 (a b : key3) : Prop :=
  let '(c1, e1, m1) := a in
  let '(c2, e2, m2) := b in
  (c1 < c2 \/ (c1 = c2 /\ (e1 < e2 \/ (e1 = e2 /\ m1 <= m2))))%Z.

Definition SFnum (f : spec_float) : Prop := f <> S754_nan.

Definition key (x : float) : key3 := SFkey (Prim2SF x).

(** [isNumber x]: [x === x], which fails on NaN and on nothing else. *)
Definition isNumber (x : float) : Prop := (x =? x) = true.

(** [isNaN x]: [x] is NaN, as [Number.isNaN( x )] tells. *)
Definition isNaN (x : float) : Prop := is_nan x = true.

End Number.

(** ** The host: library functions and constants the sources use but do not define

    [Math.pow] and [Math.exp] are approximated by the JavaScript engine, and
    [Util.toFixedNumber] belongs to the DOT library; [%] is the remainder of
    two numbers.  None has a primitive counterpart, so the model takes them
    from its host.  [ProjectileMotionConstants] is read for two constants that
    the file under [src/] does not list. *)
Record Host : Type := {
  Math_pow : float -> float -> float;
  Math_exp : float -> float;
  Util_toFixedNumber : float -> Z -> float;
  rem : float -> float -> float
}.

(** Modelled from the spec: the two constants that [Projectile.js] and
    [Tracer.js] read from [ProjectileMotionConstants], a positive
    gravitational acceleration and the minor interval of the sampling grid. *)
Record ProjectileMotionConstants : Type := {
  ACCELERATION_DUE_TO_GRAVITY : float;
  TIME_PER_MINOR_DOT : float (* milliseconds *)
}.

(** [Math.PI], the binary64 number nearest to pi. *)
Definition Math_PI : float := 3.141592653589793.

(** How a call ends: by returning, or by an exception reaching the caller. *)
Inductive Completion (A : Type) : Type :=
| Normal (v : A)
| Throw.
Arguments Normal {A} v.
Arguments Throw {A}.

(** ** Vector2 and DataPoint *)
Module Vector2.

Record t : Type := { x : float; y : float }.

(** Modelled from the spec: [Vector2.distance] of the DOT library, the
    Euclidean distance between two positions. *)
Definition distance (this point : t) : float :=
  let dx := x this - x point in
  let dy := y this - y point in
  sqrt (dx * dx + dy * dy).

End Vector2.

Module DataPoint.

(** Modelled from the spec: the sample record of [DataPoint.js], which is not
    under [src/]: a time, a position and the apex flag. *)
Record t : Type := {
  time : float;
  position : Vector2.t;
  apex : bool
}.

(** Modelled from the spec: the constructor of [DataPoint.js] as [step] calls
    it, [new DataPoint( time, x, y )]; the sample is not marked as an apex. *)
Definition new (time x y : float) : t :=
  {| time := time; position := {| Vector2.x := x; Vector2.y := y |}; apex := false |}.

(** Modelled from the spec: [DataPoint.distanceXY], the Euclidean distance from
    the sample's position to the point with coordinates [x] and [y]. *)
Definition distanceXY (this : t) (x y : float) : float :=
  let px := Vector2.x (position this) in
  let py := Vector2.y (position this) in
  sqrt ((px - x) * (px - x) + (py - y) * (py - y)).

End DataPoint.

(** ** AXON/PropertySet, as Projectile.js uses it

    AXON is not under [src/].  [PropertySet.call( this, {...} )], lines 37-46
    of Projectile.js, makes [totalTime], [x], [y], [mass], [diameter],
    [dragCoefficient], [xVelocity] and [yVelocity] properties of the
    projectile: reading one gives the value held, and assigning to one goes
    through the setter of the property. *)
Module PropertySet.

(** The value a property holds after [value] is assigned to it while it held
    [held]: the setter stores a value, and tells the listeners, only when it
    is not [===] the value held.  Numbers that are [===] are the same but for
    two zeros of opposite sign, so an assignment changes nothing exactly when
    it would change nothing or only the sign of a zero. *)
Definition set (held value : float) : float :=
  if held =? value then held else value.

(** SameValueZero of the language on numbers: NaN is the same value as NaN,
    0 the same as -0, and any other number the same as itself only. *)
Definition sameValueZero (a b : float) : bool :=
  (is_nan a && is_nan b) || (a =? b).

End PropertySet.

(** ** Projectile.js *)
Module Projectile.

(** Modelled from the spec: the scoring collaborator behind
    [scoreModel.checkforScored]; it is notified of a landing abscissa, and the
    model keeps the abscissas it was notified of, oldest first. *)
Record ScoreModel : Type := { notified : list float }.

Definition checkforScored (this : ScoreModel) (newX : float) : ScoreModel :=
  {| notified := notified this ++ [newX] |}.

(** Modelled from the spec: [ProjectileMotionModel.js] is not under [src/];
    these are the fields of the model that [step] reads. *)
Record ProjectileMotionModel : Type := {
  airResistanceOn : bool;
  altitude : float;
  scoreModel : ScoreModel
}.

(** The projectile: the eight properties of the property set, by the value
    each holds, and the plain fields of lines 34 and 49-61. *)
Record t : Type := {
  projectileMotionModel : ProjectileMotionModel;
  totalTime : float;
  x : float;
  y : float;
  mass : float;
  diameter : float;
  dragCoefficient : float;
  xVelocity : float;
  yVelocity : float;
  reachedGround : bool;
  velocity : float;
  xAcceleration : float;
  yAcceleration : float;
  dataPoints : list DataPoint.t
}.

Section Step.

Variable host : Host.
Variable constants : ProjectileMotionConstants.

(** [temperature] and [pressure] at an altitude, lines 92-104. *)
Definition atmosphere (altitude : float) : float * float :=
  if altitude <? 11000 then
    (* troposphere *)
    let temperature := 15.04 - 0.00649 * altitude in
    (temperature, 101.29 * Math_pow host ((temperature + 273.1) / 288.08) 5.256)
  else if altitude <? 25000 then
    (* lower stratosphere *)
    (-56.46, 22.65 * Math_exp host (1.73 - 0.000157 * altitude))
  else
    (* upper stratosphere *)
    let temperature := -131.21 + 0.00299 * altitude in
    (temperature, 2.488 * Math_pow host ((temperature + 273.1) / 216.6) (-11.388)).

(** The local [airDensity] of [step], lines 82-112. *)
Definition airDensity (model : ProjectileMotionModel) : float :=
  if airResistanceOn model then
    let '(temperature, pressure) := atmosphere (altitude model) in
    pressure / (0.2869 * (temperature + 273.1))
  else 0.

(** The locals of [step], lines 115-128, as functions of the state before the
    step. *)
Definition area (this : t) : float :=
  Math_PI * diameter this * diameter this / 4.

Definition dragForceX (this : t) : float :=
  0.5 * airDensity (projectileMotionModel this) * area this
  * dragCoefficient this * velocity this * xVelocity this.

Definition dragForceY (this : t) : float :=
  0.5 * airDensity (projectileMotionModel this) * area this
  * dragCoefficient this * velocity this * yVelocity this.

Definition newXAcceleration (this : t) : float :=
  (- dragForceX this) / mass this.

Definition newYAcceleration (this : t) : float :=
  (- ACCELERATION_DUE_TO_GRAVITY constants) - dragForceY this / mass this.

Definition newX (dt : float) (this : t) : float :=
  x this + xVelocity this * dt + 0.5 * newXAcceleration this * dt * dt.

Definition newY (dt : float) (this : t) : float :=
  y this + yVelocity this * dt + 0.5 * newYAcceleration this * dt * dt.

Definition newXVelocity (dt : float) (this : t) : float :=
  xVelocity this + newXAcceleration this * dt.

Definition newYVelocity (dt : float) (this : t) : float :=
  yVelocity this + newYAcceleration this * dt.

(** Lines 134-135: the discriminant under the square root, the time to the
    ground and the abscissa there. *)
Definition discriminant (this : t) : float :=
  yVelocity this * yVelocity this - 2 * newYAcceleration this * y this.

Definition timeToGround (this : t) : float :=
  ((- sqrt (discriminant this)) - yVelocity this) / newYAcceleration this.

Definition xGround (this : t) : float :=
  x this + xVelocity this * timeToGround this
  + 0.5 * newXAcceleration this * timeToGround this * timeToGround this.

(** [step( dt )], lines 69-151.  The source has no [throw] and no assertion:
    every path ends the call normally.  The assignments of lines 73-74 and
    142-146 are to properties of the property set and go through
    [PropertySet.set]; lines 148 and 150 read the properties back. *)
Definition step (dt : float) (this : t) : Completion t :=
  if reachedGround this then
    Normal {|
      projectileMotionModel := projectileMotionModel this;
      totalTime := totalTime this;
      x := x this;
      y := y this;
      mass := mass this;
      diameter := diameter this;
      dragCoefficient := dragCoefficient this;
      xVelocity := PropertySet.set (xVelocity this) 0;
      yVelocity := PropertySet.set (yVelocity this) 0;
      reachedGround := reachedGround this;
      velocity := velocity this;
      xAcceleration := xAcceleration this;
      yAcceleration := yAcceleration this;
      dataPoints := dataPoints this
    |}
  else
    let model := projectileMotionModel this in
    let '(landed, newX', newY', model') :=
      if newY dt this <=? 0 then
        (true, xGround this, 0,
         {| airResistanceOn := airResistanceOn model;
            altitude := altitude model;
            scoreModel := checkforScored (scoreModel model) (xGround this) |})
      else
        (reachedGround this, newX dt this, newY dt this, model) in
    let totalTime' := PropertySet.set (totalTime this) (totalTime this + dt) in
    let x' := PropertySet.set (x this) newX' in
    let y' := PropertySet.set (y this) newY' in
    let xVelocity' :=
      PropertySet.set (xVelocity this) (newXVelocity dt this) in
    let yVelocity' :=
      PropertySet.set (yVelocity this) (newYVelocity dt this) in
    Normal {|
      projectileMotionModel := model';
      totalTime := totalTime';
      x := x';
      y := y';
      mass := mass this;
      diameter := diameter this;
      dragCoefficient := dragCoefficient this;
      xVelocity := xVelocity';
      yVelocity := yVelocity';
      reachedGround := landed;
      velocity := sqrt (xVelocity' * xVelocity' + yVelocity' * yVelocity');
      xAcceleration := newXAcceleration this;
      yAcceleration := newYAcceleration this;
      dataPoints := dataPoints this ++ [DataPoint.new totalTime' x' y']
    |}.

End Step.

(** The loop of [getNearestPoint], lines 170-179, over the samples still to
    scan. *)
Fixpoint nearestLoop (x y : float) (rest : list DataPoint.t)
    (nearestPoint : DataPoint.t) (minDistance : float) : DataPoint.t :=
  match rest with
  | [] => nearestPoint
  | currentPoint :: rest' =>
      let currentDistance := DataPoint.distanceXY currentPoint x y in
      if currentDistance <=? minDistance
      then nearestLoop x y rest' currentPoint currentDistance
      else nearestLoop x y rest' nearestPoint minDistance
  end.

(** [getNearestPoint( x, y )], lines 158-181, on the array [dataPoints]: the
    scan starts again from index 0 with the first sample as the best so far. *)
Definition nearestIn (dataPoints : list DataPoint.t) (x y : float)
    : option DataPoint.t :=
  match dataPoints with
  | [] => None
  | first :: _ =>
      Some (nearestLoop x y dataPoints first (DataPoint.distanceXY first x y))
  end.

Definition getNearestPoint (this : t) (x y : float) : option DataPoint.t :=
  nearestIn (dataPoints this) x y.

End Projectile.

(** ** Trajectory, as Tracer.js uses it *)
Module Trajectory.

(** Modelled from the spec: the trajectory of [Trajectory.js], which is not
    under [src/]: its apex sample, if any, and its sample log.  Its
    [getNearestPoint] is the method of [Projectile.js]. *)
Record t : Type := {
  apexPoint : option DataPoint.t;
  dataPoints : list DataPoint.t
}.

Definition getNearestPoint (this : t) (x y : float) : option DataPoint.t :=
  Projectile.nearestIn (dataPoints this) x y.

End Trajectory.

(** ** Tracer.js *)
Module Tracer.

(** meters: how close the tracer needs to get to a datapoint *)
Definition SENSING_RADIUS : float := 0.2.

(** A property is modelled by the value it holds. *)
Record t : Type := {
  positionProperty : Vector2.t;
  dataPointProperty : option DataPoint.t;
  isActiveProperty : bool;
  trajectories : list Trajectory.t
}.

(** [this.dataPointProperty.set( value )] *)
Definition setDataPoint (this : t) (value : option DataPoint.t) : t :=
  {| positionProperty := positionProperty this;
     dataPointProperty := value;
     isActiveProperty := isActiveProperty this;
     trajectories := trajectories this |}.

Section Update.

Variable host : Host.
Variable constants : ProjectileMotionConstants.

(** Lines 77-78 and 96-97: [point && ( point.apex || point.position.y === 0
    || Util.toFixedNumber( point.time * 1000, 0 ) % TIME_PER_MINOR_DOT === 0 )]. *)
Definition pointIsReadable (point : option DataPoint.t) : bool :=
  match point with
  | None => false
  | Some p =>
      DataPoint.apex p
      || (Vector2.y (DataPoint.position p) =? 0)
      || (rem host (Util_toFixedNumber host (DataPoint.time p * 1000) 0)
            (TIME_PER_MINOR_DOT constants) =? 0)
  end.

(** [point.position.distance( this.positionProperty.get() ) <= SENSING_RADIUS] *)
Definition withinRange (this : t) (p : DataPoint.t) : bool :=
  Vector2.distance (DataPoint.position p) (positionProperty this)
  <=? SENSING_RADIUS.

(** Line 72: the trajectory has an apex and it is within the sensing radius. *)
Definition apexWithinRange (this : t) (currentTrajectory : Trajectory.t) : bool :=
  match Trajectory.apexPoint currentTrajectory with
  | None => false
  | Some a => withinRange this a
  end.

(** Line 76 *)
Definition nearestOf (this : t) (currentTrajectory : Trajectory.t)
    : option DataPoint.t :=
  Trajectory.getNearestPoint currentTrajectory
    (Vector2.x (positionProperty this)) (Vector2.y (positionProperty this)).

(** Line 79: the condition under which the nearest point is shown. *)
Definition readableWithinRange (this : t) (point : option DataPoint.t) : bool :=
  match point with
  | None => false
  | Some p => pointIsReadable point && withinRange this p
  end.

(** One turn of the loop of [updateData], lines 71-82: the sample the turn
    sets and returns with, or [None] when the loop goes on. *)
Definition examine (this : t) (currentTrajectory : Trajectory.t)
    : option DataPoint.t :=
  if apexWithinRange this currentTrajectory then
    Trajectory.apexPoint currentTrajectory
  else
    let point := nearestOf this currentTrajectory in
    if readableWithinRange this point then point else None.

(** The loop of [updateData], [for ( let i = length - 1; i >= 0; i-- )], with
    [n = i + 1]: the value [dataPointProperty] is set to.  An index is always
    below the length, so [get( i )] finds a trajectory. *)
Fixpoint updateDataLoop (this : t) (n : nat) : option DataPoint.t :=
  match n with
  | O => None
  | S i =>
      match nth_error (trajectories this) i with
      | Some currentTrajectory =>
          match examine this currentTrajectory with
          | Some point => Some point
          | None => updateDataLoop this i
          end
      | None => updateDataLoop this i
      end
  end.

(** [updateData()], lines 69-85 *)
Definition updateData (this : t) : t :=
  setDataPoint this (updateDataLoop this (length (trajectories this))).

(** [updateDataIfWithinRange( point )], lines 93-101 *)
Definition updateDataIfWithinRange (this : t) (point : option DataPoint.t) : t :=
  if readableWithinRange this point then setDataPoint this point else this.

End Update.

End Tracer.

(** ** The stepping loop over one projectile *)
Module ProjectileRun.

(** What the early return of [step], lines 72-76, leaves: the projectile with
    0 assigned to both velocity components. *)
Definition stopped (this : Projectile.t) : Projectile.t := {|
  Projectile.projectileMotionModel := Projectile.projectileMotionModel this;
  Projectile.totalTime := Projectile.totalTime this;
  Projectile.x := Projectile.x this;
  Projectile.y := Projectile.y this;
  Projectile.mass := Projectile.mass this;
  Projectile.diameter := Projectile.diameter this;
  Projectile.dragCoefficient := Projectile.dragCoefficient this;
  Projectile.xVelocity := PropertySet.set (Projectile.xVelocity this) 0;
  Projectile.yVelocity := PropertySet.set (Projectile.yVelocity this) 0;
  Projectile.reachedGround := Projectile.reachedGround this;
  Projectile.velocity := Projectile.velocity this;
  Projectile.xAcceleration := Projectile.xAcceleration this;
  Projectile.yAcceleration := Projectile.yAcceleration this;
  Projectile.dataPoints := Projectile.dataPoints this
|}.

(** [recorded this]: the last sample of the log records the state of the
    projectile, and the height is zero on the ground and not at or below 0 in
    flight. *)
Definition recorded (this : Projectile.t) : Prop :=
  (exists earlier,
     Projectile.dataPoints this
     = earlier ++ [DataPoint.new (Projectile.totalTime this)
                     (Projectile.x this) (Projectile.y this)])
  /\ (if Projectile.reachedGround this
      then (Projectile.y this =? 0) = true
      else (Projectile.y this <=? 0) = false).

Section Run.

Variable host : Host.
Variable constants : ProjectileMotionConstants.

(** [step( dt )] called tick after tick on the same projectile, with the time
    steps of the ticks in order; an exception would end the run. *)
Fixpoint run (dts : list float) (this : Projectile.t)
    : Completion Projectile.t :=
  match dts with
  | [] => Normal this
  | dt :: later =>
      match Projectile.step host constants dt this with
      | Normal this' => run later this'
      | Throw => Throw
      end
  end.

End Run.

End ProjectileRun.

(** ** The tracer through its listeners *)
Module TracerOps.

(** The constructor of [Tracer], lines 33-48: nothing is shown and the tracer
    is in the toolbox. *)
Definition new (trajectories : list Trajectory.t) (tracerX tracerY : float)
    : Tracer.t := {|
  Tracer.positionProperty := {| Vector2.x := tracerX; Vector2.y := tracerY |};
  Tracer.dataPointProperty := None;
  Tracer.isActiveProperty := false;
  Tracer.trajectories := trajectories
|}.

(** [reset()], lines 59-63: each property goes back to the value it was
    constructed with; the sample shown is reset after the position. *)
Definition reset (tracerX tracerY : float) (this : Tracer.t) : Tracer.t := {|
  Tracer.positionProperty := {| Vector2.x := tracerX; Vector2.y := tracerY |};
  Tracer.dataPointProperty := None;
  Tracer.isActiveProperty := false;
  Tracer.trajectories := Tracer.trajectories this
|}.

(** [this.positionProperty.set( position )] *)
Definition setPosition (this : Tracer.t) (position : Vector2.t) : Tracer.t := {|
  Tracer.positionProperty := position;
  Tracer.dataPointProperty := Tracer.dataPointProperty this;
  Tracer.isActiveProperty := Tracer.isActiveProperty this;
  Tracer.trajectories := Tracer.trajectories this
|}.

(** The group of trajectories is shared with the model, which adds and
    disposes trajectories: the tracer sees the group as the model left it. *)
Definition setTrajectories (this : Tracer.t) (trajectories : list Trajectory.t)
    : Tracer.t := {|
  Tracer.positionProperty := Tracer.positionProperty this;
  Tracer.dataPointProperty := Tracer.dataPointProperty this;
  Tracer.isActiveProperty := Tracer.isActiveProperty this;
  Tracer.trajectories := trajectories
|}.

Section Ops.

Variable host : Host.
Variable constants : ProjectileMotionConstants.

(** The listener of [TracerNode] on [positionProperty]: a change of the
    position runs [updateData]. *)
Definition moved (this : Tracer.t) (position : Vector2.t) : Tracer.t :=
  Tracer.updateData host constants (setPosition this position).

(** The listener the constructor adds, line 47: the disposal of a trajectory
    runs [updateData] on the trajectories that remain. *)
Definition disposed (this : Tracer.t) (remaining : list Trajectory.t)
    : Tracer.t :=
  Tracer.updateData host constants (setTrajectories this remaining).

(** What happens to a tracer: it is dragged, a trajectory is added to the
    group, a trajectory of the group is disposed, a point is handed to
    [updateDataIfWithinRange], [updateData] is called, the tracer is reset. *)
Inductive Op : Type :=
| Drag (position : Vector2.t)
| TrajectoryAdded (trajectories : list Trajectory.t)
| TrajectoryDisposed (remaining : list Trajectory.t)
| PointAdded (point : option DataPoint.t)
| Update
| Reset.

Definition apply (tracerX tracerY : float) (this : Tracer.t) (op : Op)
    : Tracer.t :=
  match op with
  | Drag position => moved this position
  | TrajectoryAdded trajectories => setTrajectories this trajectories
  | TrajectoryDisposed remaining => disposed this remaining
  | PointAdded point =>
      Tracer.updateDataIfWithinRange host constants this point
  | Update => Tracer.updateData host constants this
  | Reset => reset tracerX tracerY this
  end.

(** A tracer constructed at [(tracerX, tracerY)], after the operations
    [ops], in order. *)
Definition after (trajectories : list Trajectory.t) (tracerX tracerY : float)
    (ops : list Op) : Tracer.t :=
  fold_left (apply tracerX tracerY) ops (new trajectories tracerX tracerY).

End Ops.

End TracerOps.

(** ** TrajectoryIO.js

    A JavaScript object is modelled by its own enumerable properties, in the
    order they were created: this is the order [_.keys] lists them in.  The
    values a trajectory holds and the values of a state object are left
    open. *)
Module TrajectoryIO.
Import String.

Definition Obj (A : Type) : Type := list (string * A).

(** [_.keys( object )] *)
Definition keys {A : Type} (object : Obj A) : list string :=
  List.map fst object.

(** [object[ key ]]; [None] stands for [undefined]. *)
Fixpoint get {A : Type} (object : Obj A) (key : string) : option A :=
  match object with
  | [] => None
  | (k, v) :: rest => if String.eqb k key then Some v else get rest key
  end.

(** [object[ key ] = value]: the property is written where it is, or created
    after the others. *)
Fixpoint set {A : Type} (object : Obj A) (key : string) (value : A) : Obj A :=
  match object with
  | [] => [(key, value)]
  | (k, v) :: rest =>
      if String.eqb k key then (k, value) :: rest
      else (k, v) :: set rest key value
  end.

(** [object.hasOwnProperty( key )] *)
Definition hasOwnProperty {A : Type} (object : Obj A) (key : string) : bool :=
  match get object key with
  | Some _ => true
  | None => false
  end.

(** [names.map( callback )] for a callback that works on an object it closes
    over: the callback is run on each name in turn, and an exception in it
    ends the call. *)
Fixpoint forEach {S : Type} (callback : string -> S -> Completion S)
    (names : list string) (state : S) : Completion S :=
  match names with
  | [] => Normal state
  | name :: later =>
      match callback name state with
      | Normal state' => forEach callback later state'
      | Throw => Throw
      end
  end.

Section IO.

Variables Value State : Type.

(** Modelled from the spec: an IO type of the TANDEM library, or
    [DataPointIO], which is not under [src/]: the two functions that turn a
    value into its state and back. *)
Record IOType : Type := {
  typeToStateObject : option Value -> State;
  typeFromStateObject : State -> Value
}.

(** [roundTrips phetioType]: read back from its state, a value is what it
    was. *)
Definition roundTrips (phetioType : IOType) : Prop :=
  forall value,
    typeFromStateObject phetioType (typeToStateObject phetioType (Some value))
    = value.

Variables NumberIO BooleanIO NullOrDataPointIO : IOType.

(** Lines 24-31; an entry [{ phetioType: T }] is modelled by [T]. *)
Definition ioTypeSchema : Obj IOType :=
  [("mass"%string, NumberIO);
   ("diameter"%string, NumberIO);
   ("dragCoefficient"%string, NumberIO);
   ("changedInMidAir"%string, BooleanIO);
   ("reachedGround"%string, BooleanIO);
   ("apexPoint"%string, NullOrDataPointIO)].

(** [toStateObject( trajectory )], lines 40-47 *)
Definition toStateObject (trajectory : Obj Value) : Completion (Obj State) :=
  forEach
    (fun fieldName stateObject =>
       match get ioTypeSchema fieldName with
       | Some phetioType =>
           Normal (set stateObject fieldName
                     (typeToStateObject phetioType (get trajectory fieldName)))
       | None => Throw
       end)
    (keys ioTypeSchema) [].

(** [fromStateObject( stateObject )], lines 54-61.  The assertion of line 57
    asks the state object for a key of its own and holds; a key that
    [ioTypeSchema] has no entry for makes [ioTypeSchema[ fieldName ].phetioType]
    fail with a TypeError. *)
Definition fromStateObject (stateObject : Obj State) : Completion (Obj Value) :=
  forEach
    (fun fieldName fromStateObject =>
       match get ioTypeSchema fieldName, get stateObject fieldName with
       | Some phetioType, Some state =>
           Normal (set fromStateObject fieldName
                     (typeFromStateObject phetioType state))
       | _, _ => Throw
       end)
    (keys stateObject) [].

(** [setValue( trajectory, fromStateObject )], lines 68-73; [assertions] tells
    whether assertions are enabled, so that line 70 is checked. *)
Definition setValue (assertions : bool) (trajectory fromStateObject : Obj Value)
    : Completion (Obj Value) :=
  forEach
    (fun fieldName trajectory =>
       if assertions && negb (hasOwnProperty trajectory fieldName) then Throw
       else
         match get fromStateObject fieldName with
         | Some value => Normal (set trajectory fieldName value)
         | None => Throw
         end)
    (keys fromStateObject) trajectory.

End IO.

(** The six fields of a trajectory that are saved. *)
Definition fieldNames : list string :=
  ["mass"%string; "diameter"%string; "dragCoefficient"%string;
   "changedInMidAir"%string; "reachedGround"%string; "apexPoint"%string].

End TrajectoryIO.

(** ** VectorsVectorVisibilityProperties.js

    A property is modelled by the value it holds.  [VectorsDisplayEnumeration]
    is not under [src/]: its values, the two that the source names and [===]
    on them are taken as given. *)
Module VectorsVectorVisibilityProperties.

Section Visibility.

Variable VectorsDisplayEnumeration : Type.
Variables TOTAL COMPONENTS : VectorsDisplayEnumeration.

(** [a === b] on values of the enumeration *)
Variable same : VectorsDisplayEnumeration -> VectorsDisplayEnumeration -> bool.

(** The six properties of [VectorVisibilityProperties], which the constructor
    calls with its default options, and the four of this type. *)
Record t : Type := {
  totalVelocityVectorOnProperty : bool;
  componentsVelocityVectorsOnProperty : bool;
  totalAccelerationVectorOnProperty : bool;
  componentsAccelerationVectorsOnProperty : bool;
  totalForceVectorOnProperty : bool;
  componentsForceVectorsOnProperty : bool;
  velocityVectorsOnProperty : bool;
  accelerationVectorsOnProperty : bool;
  forceVectorsOnProperty : bool;
  vectorsDisplayProperty : VectorsDisplayEnumeration
}.

(** [updateVectorVisibilities( velocityVectorsOn, accelerationVectorsOn,
    forceVectorsOn, vectorsDisplay )], lines 84-94 *)
Definition updateVectorVisibilities (this : t)
    (velocityVectorsOn accelerationVectorsOn forceVectorsOn : bool)
    (vectorsDisplay : VectorsDisplayEnumeration) : t :=
  let displayTotal := same vectorsDisplay TOTAL in
  let displayComponents := same vectorsDisplay COMPONENTS in
  {| totalVelocityVectorOnProperty := velocityVectorsOn && displayTotal;
     componentsVelocityVectorsOnProperty := velocityVectorsOn && displayComponents;
     totalAccelerationVectorOnProperty := accelerationVectorsOn && displayTotal;
     componentsAccelerationVectorsOnProperty :=
       accelerationVectorsOn && displayComponents;
     totalForceVectorOnProperty := forceVectorsOn && displayTotal;
     componentsForceVectorsOnProperty := forceVectorsOn && displayComponents;
     velocityVectorsOnProperty := velocityVectorsOnProperty this;
     accelerationVectorsOnProperty := accelerationVectorsOnProperty this;
     forceVectorsOnProperty := forceVectorsOnProperty this;
     vectorsDisplayProperty := vectorsDisplayProperty this |}.

(** The listener of the multilink, lines 48-53: [updateVectorVisibilities]
    on the values the four properties hold. *)
Definition notify (this : t) : t :=
  updateVectorVisibilities this (velocityVectorsOnProperty this)
    (accelerationVectorsOnProperty this) (forceVectorsOnProperty this)
    (vectorsDisplayProperty this).

(** The constructor, lines 24-55: every property is off, total vectors are
    to be displayed, and the multilink runs its listener once. *)
Definition new : t :=
  notify {|
    totalVelocityVectorOnProperty := false;
    componentsVelocityVectorsOnProperty := false;
    totalAccelerationVectorOnProperty := false;
    componentsAccelerationVectorsOnProperty := false;
    totalForceVectorOnProperty := false;
    componentsForceVectorsOnProperty := false;
    velocityVectorsOnProperty := false;
    accelerationVectorsOnProperty := false;
    forceVectorsOnProperty := false;
    vectorsDisplayProperty := TOTAL |}.

(** [property.set( value )] on each of the four linked properties: a value
    that differs from the one held is stored and the listener runs; the same
    value changes nothing. *)
Definition setVelocityVectorsOn (value : bool) (this : t) : t :=
  if Bool.eqb value (velocityVectorsOnProperty this) then this
  else notify {|
    totalVelocityVectorOnProperty := totalVelocityVectorOnProperty this;
    componentsVelocityVectorsOnProperty := componentsVelocityVectorsOnProperty this;
    totalAccelerationVectorOnProperty := totalAccelerationVectorOnProperty this;
    componentsAccelerationVectorsOnProperty :=
      componentsAccelerationVectorsOnProperty this;
    totalForceVectorOnProperty := totalForceVectorOnProperty this;
    componentsForceVectorsOnProperty := componentsForceVectorsOnProperty this;
    velocityVectorsOnProperty := value;
    accelerationVectorsOnProperty := accelerationVectorsOnProperty this;
    forceVectorsOnProperty := forceVectorsOnProperty this;
    vectorsDisplayProperty := vectorsDisplayProperty this |}.

Definition setAccelerationVectorsOn (value : bool) (this : t) : t :=
  if Bool.eqb value (accelerationVectorsOnProperty this) then this
  else notify {|
    totalVelocityVectorOnProperty := totalVelocityVectorOnProperty this;
    componentsVelocityVectorsOnProperty := componentsVelocityVectorsOnProperty this;
    totalAccelerationVectorOnProperty := totalAccelerationVectorOnProperty this;
    componentsAccelerationVectorsOnProperty :=
      componentsAccelerationVectorsOnProperty this;
    totalForceVectorOnProperty := totalForceVectorOnProperty this;
    componentsForceVectorsOnProperty := componentsForceVectorsOnProperty this;
    velocityVectorsOnProperty := velocityVectorsOnProperty this;
    accelerationVectorsOnProperty := value;
    forceVectorsOnProperty := forceVectorsOnProperty this;
    vectorsDisplayProperty := vectorsDisplayProperty this |}.

Definition setForceVectorsOn (value : bool) (this : t) : t :=
  if Bool.eqb value (forceVectorsOnProperty this) then this
  else notify {|
    totalVelocityVectorOnProperty := totalVelocityVectorOnProperty this;
    componentsVelocityVectorsOnProperty := componentsVelocityVectorsOnProperty this;
    totalAccelerationVectorOnProperty := totalAccelerationVectorOnProperty this;
    componentsAccelerationVectorsOnProperty :=
      componentsAccelerationVectorsOnProperty this;
    totalForceVectorOnProperty := totalForceVectorOnProperty this;
    componentsForceVectorsOnProperty := componentsForceVectorsOnProperty this;
    velocityVectorsOnProperty := velocityVectorsOnProperty this;
    accelerationVectorsOnProperty := accelerationVectorsOnProperty this;
    forceVectorsOnProperty := value;
    vectorsDisplayProperty := vectorsDisplayProperty this |}.

Definition setVectorsDisplay (value : VectorsDisplayEnumeration) (this : t) : t :=
  if same value (vectorsDisplayProperty this) then this
  else notify {|
    totalVelocityVectorOnProperty := totalVelocityVectorOnProperty this;
    componentsVelocityVectorsOnProperty := componentsVelocityVectorsOnProperty this;
    totalAccelerationVectorOnProperty := totalAccelerationVectorOnProperty this;
    componentsAccelerationVectorsOnProperty :=
      componentsAccelerationVectorsOnProperty this;
    totalForceVectorOnProperty := totalForceVectorOnProperty this;
    componentsForceVectorsOnProperty := componentsForceVectorsOnProperty this;
    velocityVectorsOnProperty := velocityVectorsOnProperty this;
    accelerationVectorsOnProperty := accelerationVectorsOnProperty this;
    forceVectorsOnProperty := forceVectorsOnProperty this;
    vectorsDisplayProperty := value |}.

(** [VectorVisibilityProperties.prototype.reset], lines 87-99 of
    VectorVisibilityProperties.js, for an object that has the six
    properties. *)
Definition resetVectorVisibilityProperties (this : t) : t := {|
  totalVelocityVectorOnProperty := false;
  componentsVelocityVectorsOnProperty := false;
  totalAccelerationVectorOnProperty := false;
  componentsAccelerationVectorsOnProperty := false;
  totalForceVectorOnProperty := false;
  componentsForceVectorsOnProperty := false;
  velocityVectorsOnProperty := velocityVectorsOnProperty this;
  accelerationVectorsOnProperty := accelerationVectorsOnProperty this;
  forceVectorsOnProperty := forceVectorsOnProperty this;
  vectorsDisplayProperty := vectorsDisplayProperty this |}.

(** [reset()], lines 66-72: a property is reset by setting the value it was
    constructed with. *)
Definition reset (this : t) : t :=
  setVectorsDisplay TOTAL
    (setForceVectorsOn false
       (setAccelerationVectorsOn false
          (setVelocityVectorsOn false
             (resetVectorVisibilityProperties this)))).

(** What the controls do to the object. *)
Inductive Op : Type :=
| SetVelocityVectorsOn (value : bool)
| SetAccelerationVectorsOn (value : bool)
| SetForceVectorsOn (value : bool)
| SetVectorsDisplay (value : VectorsDisplayEnumeration)
| Reset.

Definition apply (this : t) (op : Op) : t :=
  match op with
  | SetVelocityVectorsOn value => setVelocityVectorsOn value this
  | SetAccelerationVectorsOn value => setAccelerationVectorsOn value this
  | SetForceVectorsOn value => setForceVectorsOn value this
  | SetVectorsDisplay value => setVectorsDisplay value this
  | Reset => reset this
  end.

(** The object after the operations [ops] on a new one, in order. *)
Definition after (ops : list Op) : t := fold_left apply ops new.

End Visibility.

End VectorsVectorVisibilityProperties.

(** ** Inputs of the closed examples

    The examples run with air resistance off and read samples that are
    readable by their apex flag or their height, so they never reach a
    function of the host; gravity is the 9.81 of the range scenario. *)
Definition exampleHost : Host := {|
  Math_pow := fun _ _ => nan;
  Math_exp := fun _ => nan;
  Util_toFixedNumber := fun _ _ => nan;
  rem := fun _ _ => nan
|}.

Definition exampleConstants : ProjectileMotionConstants := {|
  ACCELERATION_DUE_TO_GRAVITY := 9.81;
  TIME_PER_MINOR_DOT := 10
|}.

Definition vacuum : Projectile.ProjectileMotionModel := {|
  Projectile.airResistanceOn := false;
  Projectile.altitude := 0;
  Projectile.scoreModel := {| Projectile.notified := [] |}
|}.

(** A pumpkin fired level at 3 m/s from the height [y0], before its first
    step. *)
Definition pumpkinAt (y0 : float) : Projectile.t := {|
  Projectile.projectileMotionModel := vacuum;
  Projectile.totalTime := 0;
  Projectile.x := 0;
  Projectile.y := y0;
  Projectile.mass := 5;
  Projectile.diameter := 0.37;
  Projectile.dragCoefficient := 6;
  Projectile.xVelocity := 3;
  Projectile.yVelocity := 0;
  Projectile.reachedGround := false;
  Projectile.velocity := 3;
  Projectile.xAcceleration := 0;
  Projectile.yAcceleration := -9.81;
  Projectile.dataPoints := []
|}.

(** The pumpkin after it has landed 3 m away, 2 s after it was fired. *)
Definition landedPumpkin : Projectile.t := {|
  Projectile.projectileMotionModel := vacuum;
  Projectile.totalTime := 2;
  Projectile.x := 3;
  Projectile.y := 0;
  Projectile.mass := 5;
  Projectile.diameter := 0.37;
  Projectile.dragCoefficient := 6;
  Projectile.xVelocity := 3;
  Projectile.yVelocity := -19.62;
  Projectile.reachedGround := true;
  Projectile.velocity := 19.848032648098904;
  Projectile.xAcceleration := 0;
  Projectile.yAcceleration := -9.81;
  Projectile.dataPoints := [DataPoint.new 2 3 0]
|}.

(** Air resistance on, at an altitude. *)
Definition airAt (altitude : float) : Projectile.ProjectileMotionModel := {|
  Projectile.airResistanceOn := true;
  Projectile.altitude := altitude;
  Projectile.scoreModel := {| Projectile.notified := [] |}
|}.

(** Three samples on the ground, at 0 m, 2 m and 5 m, one a second. *)
Definition groundLog : list DataPoint.t :=
  [DataPoint.new 0 0 0; DataPoint.new 1 2 0; DataPoint.new 2 5 0].

Definition loggedPumpkin : Projectile.t := {|
  Projectile.projectileMotionModel := vacuum;
  Projectile.totalTime := 2;
  Projectile.x := 5;
  Projectile.y := 0;
  Projectile.mass := 5;
  Projectile.diameter := 0.37;
  Projectile.dragCoefficient := 6;
  Projectile.xVelocity := 0;
  Projectile.yVelocity := 0;
  Projectile.reachedGround := true;
  Projectile.velocity := 0;
  Projectile.xAcceleration := 0;
  Projectile.yAcceleration := -9.81;
  Projectile.dataPoints := groundLog
|}.

(** A low lob fired straight up from the cannon: it leaves the ground at
    time 0, reaches its apex 0.2 m up and is back on the ground. *)
Definition lobApex : DataPoint.t := {|
  DataPoint.time := 0.2;
  DataPoint.position := {| Vector2.x := 0; Vector2.y := 0.2 |};
  DataPoint.apex := true
|}.

Definition lob : Trajectory.t := {|
  Trajectory.apexPoint := Some lobApex;
  Trajectory.dataPoints := [DataPoint.new 0 0 0; lobApex; DataPoint.new 0.4 0 0]
|}.

(** A projectile fired later, of which only the sample at the cannon exists. *)
Definition fresh : Trajectory.t := {|
  Trajectory.apexPoint := None;
  Trajectory.dataPoints := [DataPoint.new 0 0 0]
|}.

(** A later shot from a cannon 10 m up, far from the probe. *)
Definition highShot : Trajectory.t := {|
  Trajectory.apexPoint := None;
  Trajectory.dataPoints := [DataPoint.new 0 0 10]
|}.

(** The tracer held [height] above the cannon, over trajectories in creation
    order, showing [shown]. *)
Definition tracerAt (height : float) (trajectories : list Trajectory.t)
    (shown : option DataPoint.t) : Tracer.t := {|
  Tracer.positionProperty := {| Vector2.x := 0; Vector2.y := height |};
  Tracer.dataPointProperty := shown;
  Tracer.isActiveProperty := true;
  Tracer.trajectories := trajectories
|}.

(** A pumpkin let go at 4.905 m by a cannon that points backwards, with a
    launch speed of 0: its horizontal velocity is [0 * Math.cos( Math.PI )],
    which is -0. *)
Definition droppedPumpkin : Projectile.t := {|
  Projectile.projectileMotionModel := vacuum;
  Projectile.totalTime := 0;
  Projectile.x := 0;
  Projectile.y := 4.905;
  Projectile.mass := 5;
  Projectile.diameter := 0.37;
  Projectile.dragCoefficient := 6;
  Projectile.xVelocity := neg_zero;
  Projectile.yVelocity := 0;
  Projectile.reachedGround := false;
  Projectile.velocity := 0;
  Projectile.xAcceleration := 0;
  Projectile.yAcceleration := -9.81;
  Projectile.dataPoints := []
|}.

(** The pumpkin at 4.905 m, with no mass. *)
Definition weightlessPumpkin : Projectile.t := {|
  Projectile.projectileMotionModel := vacuum;
  Projectile.totalTime := 0;
  Projectile.x := 0;
  Projectile.y := 4.905;
  Projectile.mass := 0;
  Projectile.diameter := 0.37;
  Projectile.dragCoefficient := 6;
  Projectile.xVelocity := 3;
  Projectile.yVelocity := 0;
  Projectile.reachedGround := false;
  Projectile.velocity := 3;
  Projectile.xAcceleration := 0;
  Projectile.yAcceleration := -9.81;
  Projectile.dataPoints := []
|}.

(** An IO type whose state is the value itself, and two trajectories as
    objects of numbers: the pumpkin with a property more than the six that are
    saved, and a lighter ball. *)
Module Saved.
Import String.

Definition plainIO : TrajectoryIO.IOType float float := {|
  TrajectoryIO.typeToStateObject :=
    fun value => match value with Some v => v | None => nan end;
  TrajectoryIO.typeFromStateObject := fun state => state
|}.

Definition pumpkinObject : TrajectoryIO.Obj float :=
  [("mass"%string, 5); ("diameter"%string, 0.37);
   ("dragCoefficient"%string, 6); ("changedInMidAir"%string, 0);
   ("reachedGround"%string, 1); ("apexPoint"%string, 0);
   ("rank"%string, 2)].

Definition ballObject : TrajectoryIO.Obj float :=
  [("rank"%string, 1); ("mass"%string, 1); ("diameter"%string, 0.1);
   ("dragCoefficient"%string, 0.5); ("changedInMidAir"%string, 1);
   ("reachedGround"%string, 0); ("apexPoint"%string, 1)].

End Saved.

(** An enumeration of the display of vectors with the two values that
    VectorsVectorVisibilityProperties.js names, for the examples. *)
Module Display.

Inductive t : Type := Total | Components.

Definition same (a b : t) : bool :=
  match a, b with
  | Total, Total | Components, Components => true
  | _, _ => false
  end.

Definition controls : list (VectorsVectorVisibilityProperties.Op t) :=
  [ VectorsVectorVisibilityProperties.SetVelocityVectorsOn t true;
    VectorsVectorVisibilityProperties.SetVectorsDisplay t Components;
    VectorsVectorVisibilityProperties.Reset t;
    VectorsVectorVisibilityProperties.SetForceVectorsOn t true;
    VectorsVectorVisibilityProperties.SetVectorsDisplay t Components;
    VectorsVectorVisibilityProperties.SetAccelerationVectorsOn t false ].

End Display.

(* ================================================================== *)
(** * Properties *)

(** ** Facts on the order of numbers *)
Module NumberOrder.
Import Number.

Ltac key_cases :=
  repeat match goal with
    | s : bool |- _ => destruct s
    end;
  cbn;
  repeat match goal with
    | |- context [Z.compare ?a ?b] => destruct (Z.compare_spec a b)
    | |- context [Pos.compare_cont Eq ?a ?b] =>
        change (Pos.compare_cont Eq a b) with (Pos.compare a b);
        destruct (Pos.compare_spec a b)
    end;
  cbn; split; intros; try discriminate; try reflexivity; try lia.

Lemma SFltb_key (f g : spec_float) :
  SFnum f -> SFnum g -> SFltb f g = true <-> lt3 (SFkey f) (SFkey g).
Proof.
  unfold SFnum, SFltb, SFcompare.
  destruct f as [s| s | |s m e], g as [t| t | |t n d]; intros Hf Hg;
    try congruence; key_cases.
Qed.

Lemma SFleb_key (f g : spec_float) :
  SFnum f -> SFnum g -> SFleb f g = true <-> le3 (SFkey f) (SFkey g).
Proof.
  unfold SFnum, SFleb, SFcompare.
  destruct f as [s| s | |s m e], g as [t| t | |t n d]; intros Hf Hg;
    try congruence; key_cases.
Qed.

Lemma SFltb_num (f g : spec_float) : SFltb f g = true -> SFnum f /\ SFnum g.
Proof.
  unfold SFnum, SFltb, SFcompare.
  destruct f, g; intros H; split; congruence.
Qed.

Lemma SFleb_num (f g : spec_float) : SFleb f g = true -> SFnum f /\ SFnum g.
Proof.
  unfold SFnum, SFleb, SFcompare.
  destruct f, g; intros H; split; congruence.
Qed.

Lemma SFeqb_refl (f : spec_float) : SFeqb f f = true <-> SFnum f.
Proof.
  unfold SFnum, SFeqb, SFcompare.
  destruct f as [s|s| |s m e]; split; intros H; try congruence;
    destruct s; trivial;
    change (Pos.compare_cont Eq m m) with (Pos.compare m m);
    now rewrite Z.compare_refl, Pos.compare_refl.
Qed.

(** The two tests, read on the specification of a number. *)
Lemma isNumber_SF (x : float) : isNumber x <-> Prim2SF x <> S754_nan.
Proof. unfold isNumber. rewrite FloatAxioms.eqb_spec. apply SFeqb_refl. Qed.

Lemma isNaN_SF (x : float) : isNaN x <-> Prim2SF x = S754_nan.
Proof.
  unfold isNaN, is_nan. rewrite negb_true_iff, <- not_true_iff_false.
  fold (isNumber x). rewrite isNumber_SF.
  destruct (Prim2SF x); split; intros H;
    try reflexivity; try discriminate;
    try (exfalso; apply H; discriminate);
    intros H'; now apply H'.
Qed.

Lemma ltb_iff (x y : float) :
  (x <? y) = true <-> isNumber x /\ isNumber y /\ lt3 (key x) (key y).
Proof.
  rewrite ltb_spec, !isNumber_SF. unfold key. split.
  - intros H. destruct (SFltb_num _ _ H) as [Hx Hy].
    repeat split; trivial. now apply SFltb_key.
  - intros (Hx & Hy & H). now apply SFltb_key.
Qed.

Lemma leb_iff (x y : float) :
  (x <=? y) = true <-> isNumber x /\ isNumber y /\ le3 (key x) (key y).
Proof.
  rewrite leb_spec, !isNumber_SF. unfold key. split.
  - intros H. destruct (SFleb_num _ _ H) as [Hx Hy].
    repeat split; trivial. now apply SFleb_key.
  - intros (Hx & Hy & H). now apply SFleb_key.
Qed.

Ltac order3 :=
  unfold lt3, le3 in *;
  repeat match goal with
    | k : key3 |- _ => destruct k as [[? ?] ?]
    end;
  lia.

Lemma le3_lt3_trans (a b c : key3) : le3 a b -> lt3 b c -> lt3 a c.
Proof. intros; order3. Qed.

Lemma lt3_le3_trans (a b c : key3) : lt3 a b -> le3 b c -> lt3 a c.
Proof. intros; order3. Qed.

Lemma lt3_le3 (a b : key3) : lt3 a b -> le3 a b.
Proof. intros; order3. Qed.

Lemma le3_not_lt3 (a b : key3) : le3 a b -> ~ lt3 b a.
Proof. intros; order3. Qed.

Lemma not_le3_lt3 (a b : key3) : ~ le3 a b -> lt3 b a.
Proof. intros; order3. Qed.

Lemma leb_ltb_trans (x y z : float) :
  (x <=? y) = true -> (y <? z) = true -> (x <? z) = true.
Proof.
  rewrite leb_iff, !ltb_iff. intros (Hx & _ & H1) (_ & Hz & H2).
  eauto using le3_lt3_trans.
Qed.

Lemma ltb_leb_trans (x y z : float) :
  (x <? y) = true -> (y <=? z) = true -> (x <? z) = true.
Proof.
  rewrite leb_iff, !ltb_iff. intros (Hx & _ & H1) (_ & Hz & H2).
  eauto using lt3_le3_trans.
Qed.

Lemma ltb_leb (x y : float) : (x <? y) = true -> (x <=? y) = true.
Proof.
  rewrite leb_iff, ltb_iff. intros (Hx & Hy & H). auto using lt3_le3.
Qed.

(** The two branches of [if (a <= b)] exclude each other's strict converse. *)
Lemma leb_not_ltb (x y : float) : (x <=? y) = true -> (y <? x) = false.
Proof.
  intros H. apply not_true_is_false. intros H'.
  apply leb_iff in H. apply ltb_iff in H'.
  destruct H as (_ & _ & H), H' as (_ & _ & H').
  now apply le3_not_lt3 in H.
Qed.

Lemma ltb_not_leb (x y : float) : (x <? y) = true -> (y <=? x) = false.
Proof.
  intros H. apply not_true_is_false. intros H'.
  now rewrite (leb_not_ltb _ _ H') in H.
Qed.

(** On numbers the order is total: when [x <= y] fails, [y < x]. *)
Lemma not_leb_ltb (x y : float) :
  isNumber x -> isNumber y -> (x <=? y) = false -> (y <? x) = true.
Proof.
  intros Hx Hy H. apply ltb_iff. repeat split; trivial.
  apply not_le3_lt3. intros H'.
  assert ((x <=? y) = true) by (apply leb_iff; auto). congruence.
Qed.

Lemma not_ltb_leb (x y : float) :
  isNumber x -> isNumber y -> (x <? y) = false -> (y <=? x) = true.
Proof.
  intros Hx Hy H. destruct (y <=? x) eqn:Hle; trivial.
  rewrite (not_leb_ltb y x Hy Hx Hle) in H. discriminate.
Qed.

Lemma ltb_irrefl (x : float) : (x <? x) = false.
Proof.
  destruct (x <? x) eqn:H; trivial.
  pose proof (ltb_not_leb _ _ H) as H'.
  now rewrite (ltb_leb _ _ H) in H'.
Qed.

(** A comparison that holds compares numbers. *)
Lemma leb_isNumber (x y : float) :
  (x <=? y) = true -> isNumber x /\ isNumber y.
Proof. rewrite leb_iff. tauto. Qed.

Lemma ltb_isNumber (x y : float) :
  (x <? y) = true -> isNumber x /\ isNumber y.
Proof. rewrite ltb_iff. tauto. Qed.

(** NaN is absorbing for the arithmetic of [step]. *)

Lemma add_NaN_r (x y : float) : isNaN y -> isNaN (x + y).
Proof.
  rewrite !isNaN_SF. intros H. rewrite add_spec, H.
  unfold SF64add, SFadd. now destruct (Prim2SF x).
Qed.

Lemma sub_NaN_l (x y : float) : isNaN x -> isNaN (x - y).
Proof. rewrite !isNaN_SF. intros H. now rewrite sub_spec, H. Qed.

Lemma mul_NaN_r (x y : float) : isNaN y -> isNaN (x * y).
Proof.
  rewrite !isNaN_SF. intros H. rewrite mul_spec, H.
  unfold SF64mul, SFmul. now destruct (Prim2SF x).
Qed.

Lemma div_NaN_l (x y : float) : isNaN x -> isNaN (x / y).
Proof. rewrite !isNaN_SF. intros H. now rewrite div_spec, H. Qed.

Lemma opp_NaN (x : float) : isNaN x -> isNaN (- x).
Proof. rewrite !isNaN_SF. intros H. now rewrite opp_spec, H. Qed.

(** [Math.sqrt] of a number below zero is NaN. *)
Lemma sqrt_negative (x : float) : (x <? 0) = true -> isNaN (sqrt x).
Proof.
  rewrite isNaN_SF, ltb_spec, sqrt_spec.
  change (Prim2SF 0) with (S754_zero false).
  unfold SFltb, SFcompare, SF64sqrt, SFsqrt.
  destruct (Prim2SF x) as [s|[|]| |[|] m e]; intros H;
    try discriminate; reflexivity.
Qed.

Lemma isNaN_not_eqb (x y : float) : isNaN x -> (x =? y) = false.
Proof. rewrite isNaN_SF. intros H. now rewrite FloatAxioms.eqb_spec, H. Qed.

End NumberOrder.

(** ** The setter of a property and the sign of zero *)
Module PropertySetSpec.
Import Number NumberOrder PropertySet.

Lemma SFeqb_cases (f g : spec_float) :
  SFeqb f g = true ->
  f = g \/ ((exists s, f = S754_zero s) /\ (exists t, g = S754_zero t)).
Proof.
  unfold SFeqb, SFcompare.
  destruct f as [s|s| |s m e], g as [t|t| |t n d]; try discriminate;
    try (destruct s; discriminate); try (destruct t; discriminate).
  - intros _. right. eauto.
  - destruct s, t; try discriminate; now left.
  - change (Pos.compare_cont Eq m n) with (Pos.compare m n).
    destruct s, t; try discriminate;
      destruct (Z.compare_spec e d); try discriminate;
      destruct (Pos.compare_spec m n); try discriminate;
      intros _; left; congruence.
Qed.

Lemma zero_eqb (x : float) :
  (x =? 0) = true <-> exists s, Prim2SF x = S754_zero s.
Proof.
  rewrite FloatAxioms.eqb_spec. change (Prim2SF 0) with (S754_zero false).
  unfold SFeqb, SFcompare. split.
  - destruct (Prim2SF x) as [s|[|]| |[|] m e]; try discriminate.
    intros _. now exists s.
  - now intros [s ->].
Qed.

(** [===] holds of identical numbers and of two zeros, and of nothing else. *)
Lemma eqb_cases (a b : float) :
  (a =? b) = true -> a = b \/ ((a =? 0) = true /\ (b =? 0) = true).
Proof.
  rewrite FloatAxioms.eqb_spec. intros H.
  destruct (SFeqb_cases _ _ H) as [Heq | [Ha Hb]].
  - left. now apply Prim2SF_inj.
  - right. now rewrite !zero_eqb.
Qed.

Lemma zeros_eqb (a b : float) :
  (a =? 0) = true -> (b =? 0) = true -> (a =? b) = true.
Proof.
  rewrite !zero_eqb. intros [s Ha] [t Hb].
  now rewrite FloatAxioms.eqb_spec, Ha, Hb.
Qed.

Lemma isNaN_eq (a b : float) : isNaN a -> isNaN b -> a = b.
Proof.
  rewrite !isNaN_SF. intros Ha Hb. apply Prim2SF_inj. congruence.
Qed.

Lemma sameValueZero_iff (a b : float) :
  sameValueZero a b = true
  <-> a = b \/ ((a =? 0) = true /\ (b =? 0) = true).
Proof.
  unfold sameValueZero. rewrite orb_true_iff, andb_true_iff. split.
  - intros [[Ha Hb] | H]; [left; now apply isNaN_eq | now apply eqb_cases].
  - intros [<- | [Ha Hb]].
    + unfold is_nan. destruct (a =? a); auto.
    + right. now apply zeros_eqb.
Qed.

Lemma sameValueZero_refl (a : float) : sameValueZero a a = true.
Proof. apply sameValueZero_iff. now left. Qed.

Lemma sameValueZero_trans (a b c : float) :
  sameValueZero a b = true -> sameValueZero b c = true ->
  sameValueZero a c = true.
Proof.
  rewrite !sameValueZero_iff.
  intros [-> | [Ha Hb]] [-> | [Hb' Hc]]; auto.
Qed.

Lemma sameValueZero_sym (a b : float) :
  sameValueZero a b = true -> sameValueZero b a = true.
Proof. rewrite !sameValueZero_iff. intros [-> | [Ha Hb]]; auto. Qed.

(** What the setter leaves in a property. *)
Lemma set_sameValueZero (held value : float) :
  sameValueZero (set held value) value = true.
Proof.
  unfold set. destruct (held =? value) eqn:H.
  - unfold sameValueZero. rewrite H. apply orb_true_r.
  - apply sameValueZero_refl.
Qed.

Lemma set_cases (held value : float) :
  set held value = value
  \/ (set held value = held /\ (held =? 0) = true /\ (value =? 0) = true).
Proof.
  unfold set. destruct (held =? value) eqn:H; [|now left].
  destruct (eqb_cases _ _ H) as [-> | [Hh Hv]]; auto.
Qed.

Lemma set_not_zero (held value : float) :
  (value =? 0) = false -> set held value = value.
Proof.
  intros Hv. destruct (set_cases held value) as [H | (_ & _ & H)];
    [exact H | congruence].
Qed.

Lemma set_held_not_zero (held value : float) :
  (held =? 0) = false -> set held value = value.
Proof.
  intros Hv. destruct (set_cases held value) as [H | (_ & H & _)];
    [exact H | congruence].
Qed.

Lemma set_NaN (held value : float) : isNaN value -> set held value = value.
Proof.
  intros Hnan. apply set_not_zero. now apply isNaN_not_eqb.
Qed.

Lemma zero_cases (a : float) : (a =? 0) = true -> a = 0 \/ a = neg_zero.
Proof.
  rewrite zero_eqb. intros [[|] H]; [right | left];
    apply Prim2SF_inj; rewrite H; reflexivity.
Qed.

Lemma set_zero (held : float) :
  (set held 0 =? 0) = true
  /\ ((held =? 0) = false -> set held 0 = 0)
  /\ (held <> neg_zero -> set held 0 = 0).
Proof.
  unfold set. destruct (held =? 0) eqn:H; repeat split; trivial;
    try discriminate.
  intros Hneg. destruct (zero_cases _ H); congruence.
Qed.

(** A comparison does not tell two numbers that are [===] apart. *)
Lemma eqb_leb (a b c : float) :
  (a =? b) = true -> (a <=? c) = (b <=? c).
Proof.
  intros H. destruct (eqb_cases _ _ H) as [-> | [Ha Hb]]; trivial.
  apply zero_eqb in Ha, Hb. destruct Ha as [s Ha], Hb as [t Hb].
  now rewrite !leb_spec, Ha, Hb.
Qed.

Lemma eqb_ltb (a b c : float) :
  (a =? b) = true -> (a <? c) = (b <? c).
Proof.
  intros H. destruct (eqb_cases _ _ H) as [-> | [Ha Hb]]; trivial.
  apply zero_eqb in Ha, Hb. destruct Ha as [s Ha], Hb as [t Hb].
  now rewrite !ltb_spec, Ha, Hb.
Qed.

Lemma set_leb (held value c : float) :
  (set held value <=? c) = (value <=? c).
Proof.
  unfold set. destruct (held =? value) eqn:H; trivial. now apply eqb_leb.
Qed.

Lemma set_isNaN (held value : float) : isNaN (set held value) <-> isNaN value.
Proof.
  unfold isNaN, is_nan.
  unfold set at 1 2. destruct (held =? value) eqn:H; [|tauto].
  destruct (eqb_cases _ _ H) as [-> | [Ha Hb]]; [tauto|].
  rewrite (zeros_eqb _ _ Ha Ha), (zeros_eqb _ _ Hb Hb). tauto.
Qed.

(** The square of a zero is 0, whatever its sign. *)
Lemma zero_square (a : float) : (a =? 0) = true -> a * a = 0.
Proof.
  rewrite zero_eqb. intros [s H]. apply Prim2SF_inj.
  rewrite mul_spec, H. now destruct s.
Qed.

Lemma sameValueZero_square (a b : float) :
  sameValueZero a b = true -> a * a = b * b.
Proof.
  rewrite sameValueZero_iff. intros [-> | [Ha Hb]]; trivial.
  now rewrite !zero_square.
Qed.

Lemma set_square (held value : float) :
  set held value * set held value = value * value.
Proof. apply sameValueZero_square, set_sameValueZero. Qed.

(** A sum does not tell [===] first terms apart. *)
Lemma sameValueZero_add (a b dt : float) :
  sameValueZero a b = true -> sameValueZero (a + dt) (b + dt) = true.
Proof.
  rewrite !sameValueZero_iff. intros [-> | [Ha Hb]]; [now left|].
  apply zero_eqb in Ha, Hb. destruct Ha as [s Ha], Hb as [t Hb].
  rewrite !zero_eqb.
  destruct (Prim2SF dt) as [u|u| |u m e] eqn:Hdt.
  - right. rewrite !add_spec, Ha, Hb, Hdt. unfold SF64add, SFadd.
    destruct s, t, u; cbn; eauto.
  - left. apply Prim2SF_inj. now rewrite !add_spec, Ha, Hb, Hdt.
  - left. apply Prim2SF_inj. now rewrite !add_spec, Ha, Hb, Hdt.
  - left. apply Prim2SF_inj. now rewrite !add_spec, Ha, Hb, Hdt.
Qed.

(** A square is not below zero, and neither is a square less a zero. *)
Lemma SFmul_square (f : spec_float) :
  let g := SFmul prec emax f f in
  g = S754_nan \/ g = S754_zero false \/ g = S754_infinity false
  \/ exists m e, g = S754_finite false m e.
Proof.
  destruct f as [s|s| |s m e]; cbn.
  - right. left. now destruct s.
  - right. right. left. now destruct s.
  - now left.
  - rewrite xorb_nilpotent. unfold binary_round_aux.
    destruct (shr_fexp prec emax (Z.pos (m * m)) (e + e) loc_Exact)
      as [mrs' e'].
    destruct (shr_fexp prec emax _ e' loc_Exact) as [mrs'' e''].
    destruct (shr_m mrs'') as [|p|p]; auto.
    destruct (e'' <=? emax - prec)%Z; [eauto 6|].
    right. right. left. reflexivity.
Qed.

Lemma square_less_zero (v z : float) :
  (z =? 0) = true -> (v * v - z <? 0) = false.
Proof.
  rewrite zero_eqb. intros [s Hz].
  rewrite ltb_spec, sub_spec, mul_spec, Hz.
  change (Prim2SF 0) with (S754_zero false).
  unfold SF64mul, SF64sub.
  destruct (SFmul_square (Prim2SF v)) as [-> | [-> | [-> | (m & e & ->)]]];
    try reflexivity.
  now destruct s.
Qed.

Lemma mul_zero_r_or_NaN (x y : float) :
  (y =? 0) = true -> (x * y =? 0) = true \/ isNaN (x * y).
Proof.
  rewrite !zero_eqb, isNaN_SF, mul_spec. intros [s ->].
  unfold SF64mul, SFmul. destruct (Prim2SF x) as [t|t| |t m e]; eauto.
Qed.

(** At a height of zero the discriminant of [step] is not below zero. *)
Lemma discriminant_at_zero (v c y : float) :
  (y =? 0) = true -> (v * v - c * y <? 0) = false.
Proof.
  intros Hy. destruct (mul_zero_r_or_NaN c y Hy) as [Hz | Hnan].
  - now apply square_less_zero.
  - destruct (v * v - c * y <? 0) eqn:Hlt; trivial.
    apply ltb_isNumber in Hlt. destruct Hlt as [Hnum _].
    apply isNumber_SF in Hnum. exfalso. apply Hnum.
    apply isNaN_SF in Hnan. rewrite sub_spec, Hnan.
    unfold SF64sub, SFsub. now destruct (Prim2SF (v * v)).
Qed.

(** Above 0 is not zero. *)
Lemma ltb_not_zero (a : float) : (0 <? a) = true -> (a =? 0) = false.
Proof.
  intros Hlt. destruct (a =? 0) eqn:Hz; trivial.
  apply ltb_not_leb in Hlt. now rewrite (eqb_leb _ _ 0 Hz) in Hlt.
Qed.

(** Assigning a value twice is assigning it once. *)
Lemma set_set (held value : float) :
  set (set held value) value = set held value.
Proof.
  unfold set. destruct (held =? value) eqn:H.
  - now rewrite H.
  - now destruct (value =? value).
Qed.

(** A sum of time steps does not tell [===] starting times apart. *)
Lemma sameValueZero_sum (dts : list float) :
  forall a b,
    sameValueZero a b = true ->
    sameValueZero (fold_left PrimFloat.add dts a)
      (fold_left PrimFloat.add dts b) = true.
Proof.
  induction dts as [|dt later IH]; intros a b Hab; cbn [fold_left]; trivial.
  now apply IH, sameValueZero_add.
Qed.

End PropertySetSpec.

(** ** The integrator: [Projectile.step] *)
Module ProjectileSpec.
Import Number NumberOrder PropertySetSpec Projectile.

Section Step.

Variable host : Host.
Variable constants : ProjectileMotionConstants.

Local Abbreviation step := (Projectile.step host constants).

(** The three paths of [step], by their guards. *)
Lemma step_on_ground (dt : float) (this : t) :
  reachedGround this = true ->
  exists this',
    step dt this = Normal this' /\
    xVelocity this' = PropertySet.set (xVelocity this) 0 /\
    yVelocity this' = PropertySet.set (yVelocity this) 0 /\
    x this' = x this /\ y this' = y this /\
    totalTime this' = totalTime this /\
    xAcceleration this' = xAcceleration this /\
    yAcceleration this' = yAcceleration this /\
    dataPoints this' = dataPoints this /\
    velocity this' = velocity this /\
    reachedGround this' = true /\
    projectileMotionModel this' = projectileMotionModel this.
Proof.
  intros Hground. unfold Projectile.step. rewrite Hground.
  eexists. split; [reflexivity|]. cbn. repeat split.
Qed.

Lemma step_flying (dt : float) (this : t) :
  reachedGround this = false ->
  (newY host constants dt this <=? 0) = false ->
  let totalTime' :=
    PropertySet.set (totalTime this) (totalTime this + dt) in
  let x' := PropertySet.set (x this) (newX host dt this) in
  let y' := PropertySet.set (y this) (newY host constants dt this) in
  let xVelocity' :=
    PropertySet.set (xVelocity this) (newXVelocity host dt this) in
  let yVelocity' :=
    PropertySet.set (yVelocity this) (newYVelocity host constants dt this) in
  step dt this =
  Normal {|
    projectileMotionModel := projectileMotionModel this;
    totalTime := totalTime';
    x := x';
    y := y';
    mass := mass this;
    diameter := diameter this;
    dragCoefficient := dragCoefficient this;
    xVelocity := xVelocity';
    yVelocity := yVelocity';
    reachedGround := false;
    velocity := sqrt (xVelocity' * xVelocity' + yVelocity' * yVelocity');
    xAcceleration := newXAcceleration host this;
    yAcceleration := newYAcceleration host constants this;
    dataPoints := dataPoints this ++ [DataPoint.new totalTime' x' y']
  |}.
Proof.
  intros Hflying Hy. unfold Projectile.step.
  rewrite Hflying, Hy. reflexivity.
Qed.

Lemma step_landing (dt : float) (this : t) :
  reachedGround this = false ->
  (newY host constants dt this <=? 0) = true ->
  let totalTime' :=
    PropertySet.set (totalTime this) (totalTime this + dt) in
  let x' := PropertySet.set (x this) (xGround host constants this) in
  let y' := PropertySet.set (y this) 0 in
  let xVelocity' :=
    PropertySet.set (xVelocity this) (newXVelocity host dt this) in
  let yVelocity' :=
    PropertySet.set (yVelocity this) (newYVelocity host constants dt this) in
  step dt this =
  Normal {|
    projectileMotionModel := {|
      airResistanceOn := airResistanceOn (projectileMotionModel this);
      altitude := altitude (projectileMotionModel this);
      scoreModel := checkforScored (scoreModel (projectileMotionModel this))
                      (xGround host constants this) |};
    totalTime := totalTime';
    x := x';
    y := y';
    mass := mass this;
    diameter := diameter this;
    dragCoefficient := dragCoefficient this;
    xVelocity := xVelocity';
    yVelocity := yVelocity';
    reachedGround := true;
    velocity := sqrt (xVelocity' * xVelocity' + yVelocity' * yVelocity');
    xAcceleration := newXAcceleration host this;
    yAcceleration := newYAcceleration host constants this;
    dataPoints := dataPoints this ++ [DataPoint.new totalTime' x' y']
  |}.
Proof.
  intros Hflying Hy. unfold Projectile.step.
  rewrite Hflying, Hy. reflexivity.
Qed.

(** The landing path on every input.  For an in-flight projectile
    whose candidate height is at most 0, [step] takes the time to the ground
    tau from the state before the step and the new vertical acceleration,
    assigns the abscissa [x + vx tau + 0.5 ax tau tau] and the height 0, sets
    [reachedGround], notifies the scoring collaborator of that abscissa and
    appends one sample at the position the projectile then has; the time of
    the sample is the elapsed time, to which the time before the step plus
    [dt] has been assigned.  What is assigned to a property is the value the
    property then holds, but for the sign of a zero assigned over a zero; the
    height is exactly 0 unless it was -0. *)
Theorem step_ground_contact (dt : float) (this : t) :
  reachedGround this = false ->
  let ax := newXAcceleration host this in
  let ay := newYAcceleration host constants this in
  let y' := y this + yVelocity this * dt + 0.5 * ay * dt * dt in
  (y' <=? 0) = true ->
  let tau :=
    ((- sqrt (yVelocity this * yVelocity this - 2 * ay * y this))
     - yVelocity this) / ay in
  let xGround := x this + xVelocity this * tau + 0.5 * ax * tau * tau in
  exists this',
    step dt this = Normal this' /\
    x this' = PropertySet.set (x this) xGround /\
    PropertySet.sameValueZero (x this') xGround = true /\
    y this' = PropertySet.set (y this) 0 /\
    (y this' =? 0) = true /\
    (y this <> neg_zero -> y this' = 0) /\
    reachedGround this' = true /\
    dataPoints this' =
      dataPoints this
      ++ [DataPoint.new (totalTime this') (x this') (y this')] /\
    totalTime this' = PropertySet.set (totalTime this) (totalTime this + dt) /\
    PropertySet.sameValueZero (totalTime this') (totalTime this + dt) = true /\
    notified (scoreModel (projectileMotionModel this')) =
      notified (scoreModel (projectileMotionModel this)) ++ [xGround].
Proof.
  intros Hflying ax ay y' Hy tau xG.
  rewrite (step_landing dt this Hflying Hy).
  eexists. split; [reflexivity|]. cbn.
  destruct (set_zero (y this)) as (Hzero & _ & Hexact).
  repeat split; trivial; apply set_sameValueZero.
Qed.

(** C2.  An in-flight step whose candidate height is above 0 commits the
    update computed from the velocity before the step: drag from the air
    density (0 with air resistance off), the area [pi d d / 4] and the speed
    before the step; the new accelerations; the new position and velocity; the
    elapsed time advanced by [dt]; the speed recomputed from the new
    velocity; and one sample, at the new time and position, appended to the
    log.  Nothing is notified to the scoring collaborator.  The abscissa, the
    two velocity components and the elapsed time are assigned to properties,
    whose setter keeps the value held when the new one is [===] to it: each
    then holds the same number as its update, which is the update itself or,
    where the update is a zero and the property held a zero, the zero it
    held.  The height, above 0, is the update itself. *)
Theorem step_commits_update (dt : float) (this : t) :
  reachedGround this = false ->
  let model := projectileMotionModel this in
  let rho := airDensity host model in
  let A := Math_PI * diameter this * diameter this / 4 in
  let speed := velocity this in
  let Fdx := 0.5 * rho * A * dragCoefficient this * speed * xVelocity this in
  let Fdy := 0.5 * rho * A * dragCoefficient this * speed * yVelocity this in
  let ax := (- Fdx) / mass this in
  let ay := (- ACCELERATION_DUE_TO_GRAVITY constants) - Fdy / mass this in
  let x' := x this + xVelocity this * dt + 0.5 * ax * dt * dt in
  let y' := y this + yVelocity this * dt + 0.5 * ay * dt * dt in
  let vx' := xVelocity this + ax * dt in
  let vy' := yVelocity this + ay * dt in
  (0 <? y') = true ->
  (airResistanceOn model = false -> rho = 0) /\
  exists this',
    step dt this = Normal this' /\
    PropertySet.sameValueZero (x this') x' = true /\
    y this' = y' /\
    PropertySet.sameValueZero (xVelocity this') vx' = true /\
    PropertySet.sameValueZero (yVelocity this') vy' = true /\
    PropertySet.sameValueZero (totalTime this') (totalTime this + dt) = true /\
    x this' = PropertySet.set (x this) x' /\
    xVelocity this' = PropertySet.set (xVelocity this) vx' /\
    yVelocity this' = PropertySet.set (yVelocity this) vy' /\
    totalTime this' = PropertySet.set (totalTime this) (totalTime this + dt) /\
    xAcceleration this' = ax /\ yAcceleration this' = ay /\
    velocity this' = sqrt (vx' * vx' + vy' * vy') /\
    dataPoints this' =
      dataPoints this ++ [DataPoint.new (totalTime this') (x this') y'] /\
    reachedGround this' = false /\
    projectileMotionModel this' = model.
Proof.
  intros Hflying model rho A speed Fdx Fdy ax ay x' y' vx' vy' Hy.
  split.
  - intros Hoff. subst rho. unfold airDensity. now rewrite Hoff.
  - pose proof (ltb_not_zero _ Hy) as Hnot.
    apply ltb_not_leb in Hy.
    rewrite (step_flying dt this Hflying Hy).
    eexists. split; [reflexivity|].
    cbn [projectileMotionModel totalTime x y xVelocity yVelocity
         reachedGround velocity xAcceleration yAcceleration dataPoints].
    change (newY host constants dt this) with y'.
    rewrite (set_not_zero (y this) y' Hnot), !set_square.
    repeat split; apply set_sameValueZero.
Qed.

(** C3.  Once [reachedGround] is set, [step] integrates nothing: it assigns
    0 to both velocity components and leaves the position, the elapsed time,
    the acceleration and the sample log as they were.  Each velocity
    component is zero afterwards: it is 0, unless it was a zero already, 0 or
    -0, which the setter of the property then leaves as it is. *)
Theorem step_after_landing (dt : float) (this : t) :
  reachedGround this = true ->
  exists this',
    step dt this = Normal this' /\
    (xVelocity this' =? 0) = true /\ (yVelocity this' =? 0) = true /\
    ((xVelocity this =? 0) = false -> xVelocity this' = 0) /\
    ((yVelocity this =? 0) = false -> yVelocity this' = 0) /\
    ((xVelocity this =? 0) = true -> xVelocity this' = xVelocity this) /\
    ((yVelocity this =? 0) = true -> yVelocity this' = yVelocity this) /\
    x this' = x this /\ y this' = y this /\
    totalTime this' = totalTime this /\
    xAcceleration this' = xAcceleration this /\
    yAcceleration this' = yAcceleration this /\
    dataPoints this' = dataPoints this.
Proof.
  intros Hground.
  destruct (step_on_ground dt this Hground)
    as (this' & Hstep & Hvx & Hvy & Hx & Hy & Ht & Hax & Hay & Hd & _).
  exists this'. split; [exact Hstep|]. rewrite Hvx, Hvy.
  destruct (set_zero (xVelocity this)) as (Hzx & Hex & _).
  destruct (set_zero (yVelocity this)) as (Hzy & Hey & _).
  repeat split; trivial; intros Hz; unfold PropertySet.set; now rewrite Hz.
Qed.

(** C5, as the code has it.  A landing step whose discriminant is below zero
    is not clamped: the square root is NaN, so are the time to the ground and
    the landing abscissa, and that NaN, not the abscissa before the step, is
    what is committed as [x], recorded in the final sample and notified to the
    scoring collaborator; the height is set to 0 and [reachedGround] to
    true.  The sample carries the elapsed time, to which the time before the
    step plus [dt] has been assigned. *)
Theorem step_negative_discriminant (dt : float) (this : t) :
  reachedGround this = false ->
  (newY host constants dt this <=? 0) = true ->
  let ay := newYAcceleration host constants this in
  (yVelocity this * yVelocity this - 2 * ay * y this <? 0) = true ->
  isNaN (timeToGround host constants this) /\
  exists this',
    step dt this = Normal this' /\
    isNaN (x this') /\
    (x this' =? x this) = false /\
    y this' = 0 /\
    reachedGround this' = true /\
    dataPoints this' =
      dataPoints this ++ [DataPoint.new (totalTime this') (x this') 0] /\
    PropertySet.sameValueZero (totalTime this') (totalTime this + dt) = true /\
    notified (scoreModel (projectileMotionModel this')) =
      notified (scoreModel (projectileMotionModel this)) ++ [x this'].
Proof.
  intros Hflying Hy ay Hdisc.
  assert (Htau : isNaN (timeToGround host constants this)).
  { unfold timeToGround. apply div_NaN_l, sub_NaN_l, opp_NaN.
    now apply sqrt_negative. }
  assert (Hx : isNaN (xGround host constants this)).
  { unfold xGround. apply add_NaN_r, mul_NaN_r, Htau. }
  assert (Hheight : (y this =? 0) = false).
  { destruct (y this =? 0) eqn:Hz; trivial.
    now rewrite (discriminant_at_zero _ (2 * ay) _ Hz) in Hdisc. }
  split; [exact Htau|].
  rewrite (step_landing dt this Hflying Hy).
  eexists. split; [reflexivity|]. cbn.
  rewrite (set_NaN _ _ Hx), (set_held_not_zero _ 0 Hheight).
  split; [exact Hx|]. split; [now apply isNaN_not_eqb|].
  repeat split. apply set_sameValueZero.
Qed.

(** C6, as the code has it.  [step] validates nothing and fails on no input:
    whatever [dt], mass and diameter are, the call ends normally. *)
Theorem step_never_fails (dt : float) (this : t) :
  exists this', step dt this = Normal this'.
Proof.
  destruct (reachedGround this) eqn:Hground.
  - destruct (step_on_ground dt this Hground) as (this' & Hstep & _).
    now exists this'.
  - destruct (newY host constants dt this <=? 0) eqn:Hy.
    + rewrite (step_landing dt this Hground Hy). eauto.
    + rewrite (step_flying dt this Hground Hy). eauto.
Qed.

(** With air resistance off no function of the host is reached. *)
Lemma airDensity_off (model : ProjectileMotionModel) :
  airResistanceOn model = false -> airDensity host model = 0.
Proof. intros Hoff. unfold airDensity. now rewrite Hoff. Qed.

(** C9.  With air resistance on, the density is [P / (0.2869 (T + 273.1))]
    for the temperature [T] and the pressure [P] of the layer the altitude is
    in: below 11000, from 11000 and below 25000, from 25000.  With air
    resistance off it is 0 at every altitude. *)
Theorem airDensity_atmosphere (model : ProjectileMotionModel) :
  let a := altitude model in
  (airResistanceOn model = false -> airDensity host model = 0) /\
  (airResistanceOn model = true ->
   ((a <? 11000) = true ->
    let T := 15.04 - 0.00649 * a in
    let P := 101.29 * Math_pow host ((T + 273.1) / 288.08) 5.256 in
    airDensity host model = P / (0.2869 * (T + 273.1))) /\
   ((11000 <=? a) = true -> (a <? 25000) = true ->
    let T := -56.46 in
    let P := 22.65 * Math_exp host (1.73 - 0.000157 * a) in
    airDensity host model = P / (0.2869 * (T + 273.1))) /\
   ((25000 <=? a) = true ->
    let T := -131.21 + 0.00299 * a in
    let P := 2.488 * Math_pow host ((T + 273.1) / 216.6) (-11.388) in
    airDensity host model = P / (0.2869 * (T + 273.1)))).
Proof.
  intros a. split; [apply airDensity_off|].
  intros Hon. unfold airDensity, atmosphere. rewrite Hon. fold a.
  repeat split.
  - intros Hlow. now rewrite Hlow.
  - intros Hge Hlt. apply leb_not_ltb in Hge. now rewrite Hge, Hlt.
  - intros Hge.
    assert (Hhigh : (a <? 25000) = false) by now apply leb_not_ltb.
    assert (Hlow : (a <? 11000) = false).
    { apply not_true_is_false. intros Hlt.
      assert (H : (a <? 25000) = true)
        by (apply (ltb_leb_trans a 11000 25000); [exact Hlt | reflexivity]).
      congruence. }
    now rewrite Hlow, Hhigh.
Qed.

End Step.

(** With air resistance off [step] does not depend on the host. *)
Lemma step_host_irrelevant (h1 h2 : Host) (constants : ProjectileMotionConstants)
    (dt : float) (this : t) :
  airResistanceOn (projectileMotionModel this) = false ->
  step h1 constants dt this = step h2 constants dt this.
Proof.
  intros Hoff.
  unfold step, xGround, timeToGround, discriminant, newX, newY,
    newXVelocity, newYVelocity, newXAcceleration, newYAcceleration,
    dragForceX, dragForceY.
  now rewrite (airDensity_off h1 _ Hoff), (airDensity_off h2 _ Hoff).
Qed.

(** *** The integrator on the pumpkin *)

(** C1 at a failing input.  The pumpkin is fired level from 4.905 m and
    stepped by 2 s: the time to the ground is 1 s, and the landing sample, 3 m
    away on the ground, is recorded at time 2, the time before the step plus
    [dt], and not at time 1. *)
Lemma step_landing_sample_time :
  (0 <? y (pumpkinAt 4.905)) = true /\
  (newY exampleHost exampleConstants 2 (pumpkinAt 4.905) <=? 0) = true /\
  timeToGround exampleHost exampleConstants (pumpkinAt 4.905) = 1 /\
  exists this',
    step exampleHost exampleConstants 2 (pumpkinAt 4.905) = Normal this' /\
    dataPoints this' = [DataPoint.new 2 3 0] /\
    totalTime this' = 2 /\
    x this' = 3 /\ y this' = 0 /\ reachedGround this' = true /\
    notified (scoreModel (projectileMotionModel this')) = [3].
Proof.
  repeat split; try (vm_compute; reflexivity).
  destruct (step_ground_contact exampleHost exampleConstants 2
              (pumpkinAt 4.905) eq_refl eq_refl)
    as (this' & Hstep & Hx & _ & Hy & _ & _ & Hg & Hd & Ht & _ & Hn).
  exists this'. rewrite Hd, Ht, Hx, Hy, Hg, Hn.
  repeat split; try exact Hstep; vm_compute; reflexivity.
Qed.

(** Stepped by half a second the pumpkin is still 3.67875 m up: the update is
    committed and one sample recorded. *)
Lemma step_commits_update_example :
  exists this',
    step exampleHost exampleConstants 0.5 (pumpkinAt 4.905) = Normal this' /\
    x this' = 1.5 /\ y this' = 3.67875 /\
    xVelocity this' = 3 /\ yVelocity this' = -4.905 /\
    totalTime this' = 0.5 /\
    dataPoints this' = [DataPoint.new 0.5 1.5 3.67875].
Proof.
  destruct (step_commits_update exampleHost exampleConstants 0.5
              (pumpkinAt 4.905) eq_refl eq_refl)
    as [_ (this' & Hstep & _ & Hy & _ & _ & _ & Hx & Hvx & Hvy & Ht
           & _ & _ & _ & Hd & _)].
  exists this'. rewrite Hd, Hx, Hy, Hvx, Hvy, Ht.
  repeat split; try exact Hstep; vm_compute; reflexivity.
Defined.

(** A further step of the landed pumpkin only clears its velocity. *)
Lemma step_after_landing_example :
  exists this',
    step exampleHost exampleConstants 0.5 landedPumpkin = Normal this' /\
    xVelocity this' = 0 /\ yVelocity this' = 0 /\
    x this' = 3 /\ y this' = 0 /\ totalTime this' = 2 /\
    dataPoints this' = [DataPoint.new 2 3 0].
Proof.
  destruct (step_after_landing exampleHost exampleConstants 0.5
              landedPumpkin eq_refl)
    as (this' & Hstep & _ & _ & Hvx & Hvy & _ & _ & Hx & Hy & Ht & _ & _
        & Hd).
  exists this'. rewrite (Hvx eq_refl), (Hvy eq_refl), Hx, Hy, Ht, Hd.
  repeat split; exact Hstep.
Defined.

(** C5 refuted.  The pumpkin starts 4.905 m below the ground: the step lands,
    the discriminant is below zero, and the abscissa committed is NaN, not
    the abscissa 0 before the step that a time to the ground clamped to 0
    would give. *)
Lemma step_not_clamped :
  (newY exampleHost exampleConstants 2 (pumpkinAt (-4.905)) <=? 0) = true /\
  (discriminant exampleHost exampleConstants (pumpkinAt (-4.905)) <? 0) = true /\
  x (pumpkinAt (-4.905)) = 0 /\
  exists this',
    step exampleHost exampleConstants 2 (pumpkinAt (-4.905)) = Normal this' /\
    is_nan (x this') = true /\
    (x this' =? x (pumpkinAt (-4.905))) = false /\
    y this' = 0 /\
    dataPoints this' = [DataPoint.new 2 nan 0].
Proof.
  repeat split; try (vm_compute; reflexivity).
  eexists. split; [vm_compute; reflexivity|].
  repeat split.
Qed.

(** The same step, through the theorem: the abscissa committed is NaN. *)
Lemma step_negative_discriminant_example :
  exists this',
    step exampleHost exampleConstants 2 (pumpkinAt (-4.905)) = Normal this' /\
    is_nan (x this') = true /\
    y this' = 0 /\ reachedGround this' = true.
Proof.
  destruct (step_negative_discriminant exampleHost exampleConstants 2
              (pumpkinAt (-4.905)) eq_refl eq_refl eq_refl)
    as [_ (this' & Hstep & Hx & _ & Hy & Hg & _)].
  exists this'. repeat split; assumption.
Defined.

(** The setter at work.  The pumpkin let go with a horizontal velocity of -0
    is stepped by half a second: the new horizontal velocity is 0, which is
    [===] the -0 held, and -0 stays; landed and stepped again, it still
    holds -0, a zero. *)
Lemma step_keeps_held_zero :
  newXVelocity exampleHost 0.5 droppedPumpkin = 0
  /\ exists this' this'',
       step exampleHost exampleConstants 0.5 droppedPumpkin = Normal this'
       /\ xVelocity this' = neg_zero
       /\ step exampleHost exampleConstants 2 this' = Normal this''
       /\ reachedGround this'' = true
       /\ exists this''',
            step exampleHost exampleConstants 0.5 this'' = Normal this'''
            /\ xVelocity this''' = neg_zero
            /\ (xVelocity this''' =? 0) = true.
Proof.
  split; [vm_compute; reflexivity|].
  eexists. eexists. split; [vm_compute; reflexivity|].
  split; [reflexivity|]. split; [vm_compute; reflexivity|].
  split; [reflexivity|]. eexists. split; [vm_compute; reflexivity|].
  split; reflexivity.
Qed.

(** C6 refuted.  Stepped by minus half a second, the pumpkin is integrated
    like on any other step: the call ends normally, the elapsed time goes
    back to -0.5 and a sample is recorded. *)
Lemma step_negative_dt_integrates :
  (-0.5 <=? 0) = true /\
  exists this',
    step exampleHost exampleConstants (-0.5) (pumpkinAt 4.905) = Normal this' /\
    totalTime this' = -0.5 /\
    x this' = -1.5 /\ y this' = 3.67875 /\
    dataPoints this' = [DataPoint.new (-0.5) (-1.5) 3.67875].
Proof.
  split; [reflexivity|].
  eexists. split; [vm_compute; reflexivity|].
  repeat split.
Qed.

(** The density in a vacuum, at sea level, at 15000 m and at 30000 m. *)
Lemma airDensity_atmosphere_example :
  airDensity exampleHost vacuum = 0
  /\ airDensity exampleHost (airAt 0)
     = 101.29
       * Math_pow exampleHost ((15.04 - 0.00649 * 0 + 273.1) / 288.08) 5.256
       / (0.2869 * (15.04 - 0.00649 * 0 + 273.1))
  /\ airDensity exampleHost (airAt 15000)
     = 22.65 * Math_exp exampleHost (1.73 - 0.000157 * 15000)
       / (0.2869 * (-56.46 + 273.1))
  /\ airDensity exampleHost (airAt 30000)
     = 2.488
       * Math_pow exampleHost
           ((-131.21 + 0.00299 * 30000 + 273.1) / 216.6) (-11.388)
       / (0.2869 * (-131.21 + 0.00299 * 30000 + 273.1)).
Proof.
  split; [exact (proj1 (airDensity_atmosphere exampleHost vacuum) eq_refl)|].
  split; [|split].
  - destruct (proj2 (airDensity_atmosphere exampleHost (airAt 0)) eq_refl)
      as (Hlow & _ & _).
    exact (Hlow eq_refl).
  - destruct (proj2 (airDensity_atmosphere exampleHost (airAt 15000)) eq_refl)
      as (_ & Hmid & _).
    exact (Hmid eq_refl eq_refl).
  - destruct (proj2 (airDensity_atmosphere exampleHost (airAt 30000)) eq_refl)
      as (_ & _ & Hhigh).
    exact (Hhigh eq_refl).
Defined.

End ProjectileSpec.

(** ** The nearest-point query: [Projectile.getNearestPoint] *)
Module NearestPointSpec.
Import Number NumberOrder Projectile.

Section Query.

Variables x y : float.

Local Abbreviation dist p := (DataPoint.distanceXY p x y).

(** Once the least distance is NaN no sample replaces the best. *)
Lemma nearestLoop_NaN (rest : list DataPoint.t) :
  forall best minDistance,
    ~ isNumber minDistance ->
    nearestLoop x y rest best minDistance = best.
Proof.
  induction rest as [|current rest IH]; intros best minDistance Hnan;
    cbn [nearestLoop]; trivial.
  destruct (DataPoint.distanceXY current x y <=? minDistance) eqn:Hle.
  - now apply leb_isNumber in Hle.
  - now apply IH.
Qed.

(** No sample is strictly nearer than the one the scan ends on: neither the
    best it started from nor a sample it scanned. *)
Lemma nearestLoop_no_nearer (rest : list DataPoint.t) :
  forall best,
    let r := nearestLoop x y rest best (dist best) in
    (dist best <? dist r) = false
    /\ forall p, In p rest -> (dist p <? dist r) = false.
Proof.
  induction rest as [|current rest IH]; intros best; cbn [nearestLoop In].
  - split; [apply ltb_irrefl | contradiction].
  - destruct (DataPoint.distanceXY current x y <=? DataPoint.distanceXY best x y)
      eqn:Hle.
    + destruct (IH current) as [H1 H2]. split.
      * apply not_true_is_false. intros H.
        now rewrite (leb_ltb_trans _ _ _ Hle H) in H1.
      * intros p [<- | Hp]; auto.
    + destruct (IH best) as [H1 H2]. split; [exact H1|].
      intros p [<- | Hp]; auto.
      apply not_true_is_false. intros H.
      destruct (ltb_isNumber _ _ H) as [Hcur Hr].
      destruct (DataPoint.distanceXY best x y =? DataPoint.distanceXY best x y)
        eqn:Hbest.
      * pose proof (not_leb_ltb _ _ Hcur Hbest Hle) as Hlt.
        now rewrite (ltb_leb_trans _ _ _ Hlt (ltb_leb _ _ H)) in H1.
      * rewrite nearestLoop_NaN in Hr by (unfold isNumber; congruence).
        unfold isNumber in Hr. congruence.
Qed.

(** It ends on the last of the nearest: no sample scanned after the one
    returned is as near. *)
Lemma nearestLoop_last (rest : list DataPoint.t) :
  forall best,
    let r := nearestLoop x y rest best (dist best) in
    (r = best /\ forall q, In q rest -> (dist q <=? dist best) = false)
    \/ exists before after,
         rest = before ++ r :: after
         /\ forall q, In q after -> (dist q <=? dist r) = false.
Proof.
  induction rest as [|current rest IH]; intros best; cbn [nearestLoop In].
  - left. split; [reflexivity | contradiction].
  - destruct (DataPoint.distanceXY current x y <=? DataPoint.distanceXY best x y)
      eqn:Hle.
    + right. destruct (IH current)
        as [[Hr Hafter] | (before & after & Hsplit & Hafter)].
      * exists [], rest. rewrite Hr. split; [reflexivity | exact Hafter].
      * exists (current :: before), after. split; [|exact Hafter].
        cbn [app]. f_equal. exact Hsplit.
    + destruct (IH best)
        as [[Hr Hafter] | (before & after & Hsplit & Hafter)].
      * left. split; [exact Hr|].
        intros q [<- | Hq]; auto.
      * right. exists (current :: before), after. split; [|exact Hafter].
        cbn [app]. f_equal. exact Hsplit.
Qed.

Lemma nearestIn_None (log : list DataPoint.t) :
  nearestIn log x y = None <-> log = [].
Proof. destruct log; cbn; split; congruence. Qed.

(** The first turn of the loop compares the first sample with itself and
    leaves it the best so far. *)
Lemma nearestIn_cons (first : DataPoint.t) (rest : list DataPoint.t) :
  nearestIn (first :: rest) x y
  = Some (nearestLoop x y rest first (dist first)).
Proof.
  unfold nearestIn. cbn [nearestLoop].
  now destruct (DataPoint.distanceXY first x y <=? DataPoint.distanceXY first x y).
Qed.

Lemma nearestIn_nearest (log : list DataPoint.t) :
  log <> [] ->
  exists before nearest after,
    nearestIn log x y = Some nearest
    /\ log = before ++ nearest :: after
    /\ (forall p, In p log -> (dist p <? dist nearest) = false)
    /\ (forall q, In q after -> (dist q <=? dist nearest) = false).
Proof.
  destruct log as [|first rest]; [congruence|]. intros _.
  rewrite nearestIn_cons.
  destruct (nearestLoop_no_nearer rest first) as [Hmin1 Hmin2].
  destruct (nearestLoop_last rest first)
    as [[Hr Hafter] | (before & after & Hsplit & Hafter)].
  - exists [], first, rest. rewrite Hr in *. repeat split; trivial.
    intros p [<- | Hp]; auto.
  - exists (first :: before), (nearestLoop x y rest first (dist first)), after.
    repeat split; trivial.
    + cbn [app]. f_equal. exact Hsplit.
    + intros p [<- | Hp]; auto.
Qed.

(** C4.  [getNearestPoint] returns none exactly on an empty log.  On a log
    that is not empty it returns a recorded sample such that no sample of the
    log is strictly nearer to the query point, and no sample recorded after
    it is as near: of the samples at the least distance it is the latest.
    Where the distances are numbers, this is to say that its distance is at
    most that of every sample, and less than that of every later sample. *)
Theorem getNearestPoint_nearest (this : t) :
  (getNearestPoint this x y = None <-> dataPoints this = [])
  /\ (dataPoints this <> [] ->
      exists before nearest after,
        getNearestPoint this x y = Some nearest
        /\ dataPoints this = before ++ nearest :: after
        /\ (forall p, In p (dataPoints this) ->
              (DataPoint.distanceXY p x y <? DataPoint.distanceXY nearest x y)
              = false)
        /\ (forall q, In q after ->
              (DataPoint.distanceXY q x y <=? DataPoint.distanceXY nearest x y)
              = false)
        /\ ((forall p, In p (dataPoints this) ->
               isNumber (DataPoint.distanceXY p x y)) ->
            (forall p, In p (dataPoints this) ->
               (DataPoint.distanceXY nearest x y <=? DataPoint.distanceXY p x y)
               = true)
            /\ (forall q, In q after ->
                  (DataPoint.distanceXY nearest x y <? DataPoint.distanceXY q x y)
                  = true))).
Proof.
  unfold getNearestPoint. split; [apply nearestIn_None|].
  intros Hlog.
  destruct (nearestIn_nearest (dataPoints this) Hlog)
    as (before & nearest & after & Hget & Hsplit & Hmin & Hlast).
  exists before, nearest, after.
  split; [exact Hget|]. split; [exact Hsplit|].
  split; [exact Hmin|]. split; [exact Hlast|].
  intros Hnum.
  assert (Hnearest : isNumber (DataPoint.distanceXY nearest x y))
    by (apply Hnum; rewrite Hsplit; apply in_elt).
  split.
  - intros p Hp. apply not_ltb_leb; auto.
  - intros q Hq. apply not_leb_ltb; auto.
    apply Hnum. rewrite Hsplit. apply in_or_app. right. now right.
Qed.

End Query.

(** Queried from 1 m, the samples at 0 m and 2 m are both 1 m away: the later
    one is returned; it is at most as far as every sample, and the sample
    recorded after it is farther. *)
Lemma getNearestPoint_nearest_example :
  getNearestPoint loggedPumpkin 1 0 = Some (DataPoint.new 1 2 0)
  /\ exists before after,
       groundLog = before ++ DataPoint.new 1 2 0 :: after
       /\ (forall p, In p groundLog ->
             (DataPoint.distanceXY (DataPoint.new 1 2 0) 1 0
              <=? DataPoint.distanceXY p 1 0) = true)
       /\ (forall q, In q after ->
             (DataPoint.distanceXY (DataPoint.new 1 2 0) 1 0
              <? DataPoint.distanceXY q 1 0) = true).
Proof.
  split; [reflexivity|].
  destruct (proj2 (getNearestPoint_nearest 1 0 loggedPumpkin))
    as (before & nearest & after & Hget & Hsplit & _ & _ & Hnum).
  - discriminate.
  - change (getNearestPoint loggedPumpkin 1 0)
      with (Some (DataPoint.new 1 2 0)) in Hget.
    injection Hget as <-.
    destruct Hnum as [Hmin Hafter].
    + intros p [<- | [<- | [<- | []]]]; reflexivity.
    + exists before, after. repeat split; assumption.
Defined.

End NearestPointSpec.

(** ** The tracer probe: [Tracer.updateData] and [Tracer.updateDataIfWithinRange] *)
Module TracerSpec.
Import Tracer.

Section Update.

Variable host : Host.
Variable constants : ProjectileMotionConstants.

Local Abbreviation examine := (Tracer.examine host constants).
Local Abbreviation updateDataLoop := (Tracer.updateDataLoop host constants).
Local Abbreviation updateData := (Tracer.updateData host constants).
Local Abbreviation pointIsReadable := (Tracer.pointIsReadable host constants).
Local Abbreviation readableWithinRange :=
  (Tracer.readableWithinRange host constants).

(** [pointIsReadable], disjunct by disjunct. *)
Lemma pointIsReadable_iff (p : DataPoint.t) :
  pointIsReadable (Some p) = true <->
  DataPoint.apex p = true
  \/ (Vector2.y (DataPoint.position p) =? 0) = true
  \/ (rem host (Util_toFixedNumber host (DataPoint.time p * 1000) 0)
        (TIME_PER_MINOR_DOT constants) =? 0) = true.
Proof.
  unfold Tracer.pointIsReadable. rewrite !orb_true_iff. tauto.
Qed.

Lemma readableWithinRange_iff (this : t) (point : option DataPoint.t) :
  readableWithinRange this point = true <->
  exists p, point = Some p
    /\ pointIsReadable (Some p) = true /\ withinRange this p = true.
Proof.
  unfold Tracer.readableWithinRange. destruct point as [p|].
  - rewrite andb_true_iff. split.
    + intros H. now exists p.
    + intros (q & [= <-] & H). exact H.
  - split; [discriminate | intros (q & [=] & _)].
Qed.

(** What a turn of the loop sets: the apex when it is within range, else the
    nearest sample when it is readable and within range. *)
Lemma examine_Some (this : t) (T : Trajectory.t) (p : DataPoint.t) :
  examine this T = Some p <->
  (Trajectory.apexPoint T = Some p /\ withinRange this p = true)
  \/ (apexWithinRange this T = false
      /\ nearestOf this T = Some p
      /\ pointIsReadable (Some p) = true /\ withinRange this p = true).
Proof.
  unfold Tracer.examine, apexWithinRange.
  destruct (Trajectory.apexPoint T) as [a|] eqn:Hapex.
  - destruct (withinRange this a) eqn:Ha.
    + split.
      * intros [= <-]. left. now split.
      * intros [[H _] | [H _]]; congruence.
    + split.
      * intros H. right. split; [reflexivity|].
        destruct (readableWithinRange this (nearestOf this T)) eqn:Hr;
          [|discriminate].
        apply readableWithinRange_iff in Hr. destruct Hr as (q & Hq & Hr).
        rewrite Hq in H. injection H as <-. now split.
      * intros [[[= <-] H] | (_ & Hn & Hr)]; [congruence|].
        rewrite Hn. unfold Tracer.readableWithinRange.
        now rewrite (proj1 Hr), (proj2 Hr).
  - split.
    + intros H. right. split; [reflexivity|].
      destruct (readableWithinRange this (nearestOf this T)) eqn:Hr;
        [|discriminate].
      apply readableWithinRange_iff in Hr. destruct Hr as (q & Hq & Hr).
      rewrite Hq in H. injection H as <-. now split.
    + intros [[[=] _] | (_ & Hn & Hr)].
      rewrite Hn. unfold Tracer.readableWithinRange.
      now rewrite (proj1 Hr), (proj2 Hr).
Qed.

Lemma examine_None (this : t) (T : Trajectory.t) :
  examine this T = None <->
  apexWithinRange this T = false
  /\ readableWithinRange this (nearestOf this T) = false.
Proof.
  unfold Tracer.examine, apexWithinRange.
  destruct (Trajectory.apexPoint T) as [a|] eqn:Hapex.
  - destruct (withinRange this a) eqn:Ha.
    + split; [discriminate | intros [[=] _]].
    + destruct (readableWithinRange this (nearestOf this T)) eqn:Hr.
      * apply readableWithinRange_iff in Hr. destruct Hr as (q & -> & _).
        split; [discriminate | intros [_ [=]]].
      * tauto.
  - destruct (readableWithinRange this (nearestOf this T)) eqn:Hr.
    + apply readableWithinRange_iff in Hr. destruct Hr as (q & -> & _).
      split; [discriminate | intros [_ [=]]].
    + tauto.
Qed.

(** The loop from index [n - 1] down: the most recent trajectory below [n]
    whose turn sets a sample decides. *)
Lemma updateDataLoop_found (this : t) (n : nat) :
  forall i T p,
    (i < n)%nat ->
    nth_error (trajectories this) i = Some T ->
    examine this T = Some p ->
    (forall j T', (i < j < n)%nat ->
       nth_error (trajectories this) j = Some T' -> examine this T' = None) ->
    updateDataLoop this n = Some p.
Proof.
  induction n as [|n IH]; intros i T p Hi HT Hp Hnewer; [lia|].
  cbn [Tracer.updateDataLoop].
  destruct (Nat.eq_dec i n) as [-> | Hne].
  - now rewrite HT, Hp.
  - assert (Hrec : updateDataLoop this n = Some p).
    { apply (IH i T p); trivial; [lia|].
      intros j T' Hj. apply Hnewer. lia. }
    destruct (nth_error (trajectories this) n) as [T'|] eqn:HT'; trivial.
    rewrite (Hnewer n T'); trivial. lia.
Qed.

Lemma updateDataLoop_Some (this : t) (n : nat) (p : DataPoint.t) :
  updateDataLoop this n = Some p ->
  exists i T,
    (i < n)%nat /\ nth_error (trajectories this) i = Some T
    /\ examine this T = Some p.
Proof.
  induction n as [|n IH]; cbn [Tracer.updateDataLoop]; [discriminate|].
  destruct (nth_error (trajectories this) n) as [T|] eqn:HT.
  - destruct (examine this T) as [q|] eqn:Hq.
    + intros [= <-]. exists n, T. auto.
    + intros H. destruct (IH H) as (i & T' & Hi & H'). exists i, T'.
      split; [lia | exact H'].
  - intros H. destruct (IH H) as (i & T' & Hi & H'). exists i, T'.
    split; [lia | exact H'].
Qed.

Lemma updateDataLoop_None (this : t) (n : nat) :
  (forall i T, (i < n)%nat -> nth_error (trajectories this) i = Some T ->
     examine this T = None) ->
  updateDataLoop this n = None.
Proof.
  induction n as [|n IH]; intros H; cbn [Tracer.updateDataLoop]; trivial.
  assert (Hrec : updateDataLoop this n = None)
    by (apply IH; intros i T Hi; apply H; lia).
  destruct (nth_error (trajectories this) n) as [T|] eqn:HT; trivial.
  rewrite (H n T); trivial. lia.
Qed.

(** C7, as the code has it.  When the probe is within the sensing radius of
    the apex of a trajectory, and no trajectory created after it yields a
    match (neither its apex nor its nearest sample), [updateData] shows that
    apex, whatever the samples of the trajectory are: a sample of it that is
    closer does not win.  Trajectories are examined from the most recent one
    back, and the first that yields a match decides. *)
Theorem updateData_apex_priority (this : t) (older newer : list Trajectory.t)
    (T : Trajectory.t) (a : DataPoint.t) :
  trajectories this = older ++ T :: newer ->
  Trajectory.apexPoint T = Some a ->
  (Vector2.distance (DataPoint.position a) (positionProperty this)
   <=? SENSING_RADIUS) = true ->
  (forall T', In T' newer ->
     apexWithinRange this T' = false
     /\ readableWithinRange this (nearestOf this T') = false) ->
  dataPointProperty (updateData this) = Some a.
Proof.
  intros Hts Hapex Hrange Hnewer. cbn.
  apply (updateDataLoop_found this _ (length older) T a).
  - rewrite Hts, length_app. cbn. lia.
  - rewrite Hts, nth_error_app2, Nat.sub_diag by lia. reflexivity.
  - apply examine_Some. left. now split.
  - intros j T' Hj HT'. apply examine_None, Hnewer.
    rewrite Hts, nth_error_app2 in HT' by lia.
    destruct (j - length older)%nat as [|k] eqn:Hk; [lia|].
    cbn in HT'. now apply nth_error_In in HT'.
Qed.

(** C8.  A sample that [updateData] shows comes from one of the trajectories:
    it is the apex of the trajectory, within the sensing radius, or the apex
    is not within the radius and the sample is the nearest one of the
    trajectory, is readable (its apex flag is set, or its height is 0, or its
    time in milliseconds is a multiple of the minor interval) and is within
    the sensing radius.  When no trajectory yields a match, nothing is
    shown. *)
Theorem updateData_match (this : t) :
  (forall p, dataPointProperty (updateData this) = Some p ->
     exists T, In T (trajectories this) /\
       ((Trajectory.apexPoint T = Some p
         /\ (Vector2.distance (DataPoint.position p) (positionProperty this)
             <=? SENSING_RADIUS) = true)
        \/ (apexWithinRange this T = false
            /\ Trajectory.getNearestPoint T
                 (Vector2.x (positionProperty this))
                 (Vector2.y (positionProperty this)) = Some p
            /\ (DataPoint.apex p = true
                \/ (Vector2.y (DataPoint.position p) =? 0) = true
                \/ (rem host
                      (Util_toFixedNumber host (DataPoint.time p * 1000) 0)
                      (TIME_PER_MINOR_DOT constants) =? 0) = true)
            /\ (Vector2.distance (DataPoint.position p) (positionProperty this)
                <=? SENSING_RADIUS) = true)))
  /\ ((forall T, In T (trajectories this) ->
         apexWithinRange this T = false
         /\ readableWithinRange this (nearestOf this T) = false) ->
      dataPointProperty (updateData this) = None).
Proof.
  cbn. split.
  - intros p Hp.
    destruct (updateDataLoop_Some this _ p Hp)
      as (i & T & _ & HT & Hex).
    exists T. split; [now apply nth_error_In in HT|].
    apply examine_Some in Hex.
    destruct Hex as [H | (Hapex & Hn & Hr & Hw)]; [now left|].
    right. apply pointIsReadable_iff in Hr. auto.
  - intros Hnone. apply updateDataLoop_None.
    intros i T _ HT. apply examine_None, Hnone.
    now apply nth_error_In in HT.
Qed.

(** C10.  [updateDataIfWithinRange] changes nothing but the sample shown.  It
    shows the point it is given when the point is readable and within the
    sensing radius; in every other case the sample shown stays; so a sample
    that is shown is never replaced by none.  [updateData] is what resets it:
    over no trajectory it shows nothing, whatever was shown. *)
Theorem updateDataIfWithinRange_frame (this : t) (point : option DataPoint.t) :
  let this' := Tracer.updateDataIfWithinRange host constants this point in
  positionProperty this' = positionProperty this
  /\ trajectories this' = trajectories this
  /\ isActiveProperty this' = isActiveProperty this
  /\ (forall p, point = Some p ->
        pointIsReadable (Some p) = true ->
        (Vector2.distance (DataPoint.position p) (positionProperty this)
         <=? SENSING_RADIUS) = true ->
        dataPointProperty this' = Some p)
  /\ (~ (exists p, point = Some p
           /\ pointIsReadable (Some p) = true
           /\ (Vector2.distance (DataPoint.position p) (positionProperty this)
               <=? SENSING_RADIUS) = true) ->
      dataPointProperty this' = dataPointProperty this)
  /\ (dataPointProperty this' = None -> dataPointProperty this = None)
  /\ (trajectories this = [] -> dataPointProperty (updateData this) = None).
Proof.
  intros this'. subst this'. unfold Tracer.updateDataIfWithinRange.
  assert (Hreset : trajectories this = [] ->
                   dataPointProperty (updateData this) = None)
    by (cbn; intros ->; reflexivity).
  destruct (readableWithinRange this point) eqn:Hr.
  - apply readableWithinRange_iff in Hr.
    destruct Hr as (q & -> & Hread & Hwithin). cbn.
    split; [reflexivity|]. split; [reflexivity|]. split; [reflexivity|].
    split; [now intros p [= <-]|].
    split; [intros H; exfalso; apply H; now exists q|].
    split; [discriminate | exact Hreset].
  - split; [reflexivity|]. split; [reflexivity|]. split; [reflexivity|].
    split.
    { intros p -> Hread Hwithin.
      assert (H : readableWithinRange this (Some p) = true)
        by (apply readableWithinRange_iff; now exists p).
      congruence. }
    split; [reflexivity|].
    split; [trivial | exact Hreset].
Qed.

End Update.

(** *** The tracer over the lob *)

(** C7 refuted.  The probe is 0.1 m above the cannon, within the sensing
    radius of the apex of the lob; a projectile fired after the lob has only
    its sample at the cannon, readable by its height and as near.  The more
    recent trajectory is examined first, and its sample is shown, not the
    apex. *)
Lemma updateData_shows_newer_sample :
  Trajectory.apexPoint lob = Some lobApex
  /\ withinRange (tracerAt 0.1 [lob; fresh] None) lobApex = true
  /\ dataPointProperty
       (Tracer.updateData exampleHost exampleConstants
          (tracerAt 0.1 [lob; fresh] None))
     = Some (DataPoint.new 0 0 0)
  /\ DataPoint.apex (DataPoint.new 0 0 0) = false.
Proof. repeat split. Qed.

(** The probe is 0.05 m above the cannon: the last ground sample of the lob is
    its nearest sample and is readable, the apex is three times as far, and the
    apex is shown. *)
Lemma updateData_apex_priority_example :
  nearestOf (tracerAt 0.05 [lob; highShot] None) lob
  = Some (DataPoint.new 0.4 0 0)
  /\ dataPointProperty
       (Tracer.updateData exampleHost exampleConstants
          (tracerAt 0.05 [lob; highShot] None))
     = Some lobApex.
Proof.
  split; [reflexivity|].
  apply (updateData_apex_priority exampleHost exampleConstants
           (tracerAt 0.05 [lob; highShot] None) [] [highShot] lob lobApex);
    try reflexivity.
  intros T' [<- | []]. split; reflexivity.
Defined.

(** Held 0.1 m above the cannon the tracer shows the sample of the later
    projectile, its nearest one; held 5 m up it shows nothing. *)
Lemma updateData_match_example :
  (exists T, In T [lob; fresh] /\
     Trajectory.getNearestPoint T 0 0.1 = Some (DataPoint.new 0 0 0)
     /\ (Vector2.distance (DataPoint.position (DataPoint.new 0 0 0))
           (positionProperty (tracerAt 0.1 [lob; fresh] None))
         <=? SENSING_RADIUS) = true)
  /\ dataPointProperty
       (Tracer.updateData exampleHost exampleConstants
          (tracerAt 5 [lob; fresh] (Some lobApex)))
     = None.
Proof.
  split.
  - destruct (proj1 (updateData_match exampleHost exampleConstants
                       (tracerAt 0.1 [lob; fresh] None))
                (DataPoint.new 0 0 0) eq_refl)
      as (T & HT & [[Hapex _] | (_ & Hnear & _ & Hwithin)]).
    + destruct HT as [<- | [<- | []]]; discriminate.
    + exists T. repeat split; assumption.
  - apply (proj2 (updateData_match exampleHost exampleConstants
                    (tracerAt 5 [lob; fresh] (Some lobApex)))).
    intros T [<- | [<- | []]]; split; reflexivity.
Defined.

(** The tracer shows the apex of the lob.  Held 5 m up, out of range of every
    sample, and given the sample at the cannon, [updateDataIfWithinRange]
    keeps showing the apex, where [updateData] shows nothing; held 0.1 m up it
    shows the sample it is given. *)
Lemma updateDataIfWithinRange_frame_example :
  dataPointProperty
    (Tracer.updateDataIfWithinRange exampleHost exampleConstants
       (tracerAt 5 [lob] (Some lobApex)) (Some (DataPoint.new 0 0 0)))
  = Some lobApex
  /\ dataPointProperty
       (Tracer.updateData exampleHost exampleConstants
          (tracerAt 5 [lob] (Some lobApex)))
     = None
  /\ dataPointProperty
       (Tracer.updateDataIfWithinRange exampleHost exampleConstants
          (tracerAt 0.1 [lob] (Some lobApex)) (Some (DataPoint.new 0 0 0)))
     = Some (DataPoint.new 0 0 0).
Proof.
  split; [|split; [reflexivity|]].
  - pose proof (updateDataIfWithinRange_frame exampleHost exampleConstants
                  (tracerAt 5 [lob] (Some lobApex))
                  (Some (DataPoint.new 0 0 0))) as (_ & _ & _ & _ & H & _).
    apply H. intros (p & [= <-] & _ & Hwithin). discriminate Hwithin.
  - pose proof (updateDataIfWithinRange_frame exampleHost exampleConstants
                  (tracerAt 0.1 [lob] (Some lobApex))
                  (Some (DataPoint.new 0 0 0))) as (_ & _ & _ & H & _).
    exact (H _ eq_refl eq_refl eq_refl).
Defined.

End TracerSpec.

(** ** Facts on zero and NaN *)
Module NumberEdge.
Import Number NumberOrder.

Lemma isNaN_not_isNumber (x : float) : isNaN x -> ~ isNumber x.
Proof. rewrite isNaN_SF, isNumber_SF. tauto. Qed.

(** NaN is at or below nothing. *)
Lemma isNaN_not_leb (x y : float) : isNaN x -> (x <=? y) = false.
Proof.
  intros Hnan. destruct (x <=? y) eqn:Hle; trivial.
  apply leb_isNumber in Hle. now apply isNaN_not_isNumber in Hnan.
Qed.

Lemma add_NaN_l (x y : float) : isNaN x -> isNaN (x + y).
Proof. rewrite !isNaN_SF. intros H. now rewrite add_spec, H. Qed.

Lemma mul_NaN_l (x y : float) : isNaN x -> isNaN (x * y).
Proof. rewrite !isNaN_SF. intros H. now rewrite mul_spec, H. Qed.

Lemma sub_NaN_r (x y : float) : isNaN y -> isNaN (x - y).
Proof.
  rewrite !isNaN_SF. intros H. rewrite sub_spec, H.
  unfold SF64sub, SFsub. now destruct (Prim2SF x).
Qed.

(** A number that [=== 0] is 0 or -0. *)
Lemma eqb_zero (x : float) :
  (x =? 0) = true -> exists s, Prim2SF x = S754_zero s.
Proof.
  rewrite FloatAxioms.eqb_spec. change (Prim2SF 0) with (S754_zero false).
  unfold SFeqb, SFcompare.
  destruct (Prim2SF x) as [s|[|]| |[|] m e]; try discriminate.
  intros _. now exists s.
Qed.

(** A product with a factor that is zero or NaN is zero or NaN. *)
Lemma mul_zero_or_NaN (x y : float) :
  (exists s, Prim2SF x = S754_zero s) \/ isNaN x ->
  (exists s, Prim2SF (x * y) = S754_zero s) \/ isNaN (x * y).
Proof.
  rewrite !isNaN_SF, mul_spec. unfold SF64mul, SFmul.
  intros [[s ->] | ->]; [|now right].
  destruct (Prim2SF y) as [t|t| |t m e]; eauto.
Qed.

(** Zero or NaN divided by zero is NaN. *)
Lemma div_zero_by_zero (x y : float) :
  (exists s, Prim2SF x = S754_zero s) \/ isNaN x ->
  (exists s, Prim2SF y = S754_zero s) ->
  isNaN (x / y).
Proof.
  rewrite !isNaN_SF, div_spec. unfold SF64div, SFdiv.
  intros Hx [t Ht]. rewrite Ht.
  destruct Hx as [[s ->] | ->]; reflexivity.
Qed.

End NumberEdge.

(** ** The stepping loop: [Projectile.step] tick after tick *)
Module ProjectileRunSpec.
Import Number NumberOrder PropertySetSpec NumberEdge Projectile ProjectileRun.

Section Run.

Variable host : Host.
Variable constants : ProjectileMotionConstants.

Local Abbreviation step := (Projectile.step host constants).
Local Abbreviation run := (ProjectileRun.run host constants).
Local Abbreviation notifiedOf this :=
  (notified (scoreModel (projectileMotionModel this))).

(** The sample that records the state of a projectile. *)
Local Abbreviation sampleOf this :=
  (DataPoint.new (totalTime this) (x this) (y this)).

Lemma step_landed (dt : float) (this : t) :
  reachedGround this = true -> step dt this = Normal (stopped this).
Proof.
  intros Hground. unfold Projectile.step, stopped.
  now rewrite Hground.
Qed.

(** One step, path by path, in the terms the loop is followed with. *)
Lemma step_effect (dt : float) (this : t) :
  exists this',
    step dt this = Normal this'
    /\ mass this' = mass this
    /\ diameter this' = diameter this
    /\ dragCoefficient this' = dragCoefficient this
    /\ airResistanceOn (projectileMotionModel this')
       = airResistanceOn (projectileMotionModel this)
    /\ altitude (projectileMotionModel this')
       = altitude (projectileMotionModel this)
    /\ ((reachedGround this = true /\ this' = stopped this)
        \/ (reachedGround this = false
            /\ reachedGround this' = false
            /\ (y this' <=? 0) = false
            /\ notifiedOf this' = notifiedOf this
            /\ dataPoints this' = dataPoints this ++ [sampleOf this'])
        \/ (reachedGround this = false
            /\ reachedGround this' = true
            /\ (y this' =? 0) = true
            /\ (exists landingX,
                  notifiedOf this' = notifiedOf this ++ [landingX]
                  /\ PropertySet.sameValueZero landingX (x this') = true)
            /\ dataPoints this' = dataPoints this ++ [sampleOf this'])).
Proof.
  destruct (reachedGround this) eqn:Hground.
  - exists (stopped this). split; [now apply step_landed|].
    repeat split. now left.
  - destruct (newY host constants dt this <=? 0) eqn:Hy.
    + rewrite (ProjectileSpec.step_landing host constants dt this Hground Hy).
      eexists. split; [reflexivity|]. cbn. repeat split.
      right. right. repeat split.
      * apply set_zero.
      * eexists. split; [reflexivity|].
        apply sameValueZero_sym, set_sameValueZero.
    + rewrite (ProjectileSpec.step_flying host constants dt this Hground Hy).
      eexists. split; [reflexivity|].
      cbn [projectileMotionModel totalTime x y xVelocity yVelocity mass
           diameter dragCoefficient reachedGround velocity xAcceleration
           yAcceleration dataPoints].
      repeat split.
      right. left. repeat split. now rewrite set_leb.
Qed.

Lemma stopped_stopped (this : t) : stopped (stopped this) = stopped this.
Proof. unfold stopped. cbn. now rewrite !set_set. Qed.

Lemma run_on_ground (dts : list float) (this : t) :
  reachedGround this = true ->
  dts <> [] ->
  run dts this = Normal (stopped this).
Proof.
  revert this. induction dts as [|dt later IH]; intros this Hground Hdts;
    [congruence|].
  cbn [ProjectileRun.run]. rewrite (step_landed dt this Hground).
  destruct later as [|dt' later']; [reflexivity|].
  rewrite IH by (trivial; discriminate). now rewrite stopped_stopped.
Qed.

(** X1.  A landed projectile stays as it landed: whatever the ticks, one or
    many, the run leaves it with both velocity components zero and
    everything else untouched, the position, the time, the log and the
    notifications included.  A velocity component is 0 afterwards, unless it
    was a zero already, 0 or -0, which the setter of the property then leaves
    as it is. *)
Theorem run_landed (dts : list float) (this : t) :
  reachedGround this = true ->
  dts <> [] ->
  run dts this = Normal (stopped this)
  /\ x (stopped this) = x this /\ y (stopped this) = y this
  /\ totalTime (stopped this) = totalTime this
  /\ dataPoints (stopped this) = dataPoints this
  /\ projectileMotionModel (stopped this) = projectileMotionModel this
  /\ (xVelocity (stopped this) =? 0) = true
  /\ (yVelocity (stopped this) =? 0) = true
  /\ ((xVelocity this =? 0) = false -> xVelocity (stopped this) = 0)
  /\ ((yVelocity this =? 0) = false -> yVelocity (stopped this) = 0)
  /\ ((xVelocity this =? 0) = true -> xVelocity (stopped this) = xVelocity this)
  /\ ((yVelocity this =? 0) = true -> yVelocity (stopped this) = yVelocity this).
Proof.
  intros Hground Hdts. split; [now apply run_on_ground|].
  destruct (set_zero (xVelocity this)) as (Hzx & Hex & _).
  destruct (set_zero (yVelocity this)) as (Hzy & Hey & _).
  cbn. repeat split; trivial;
    intros Hz; unfold PropertySet.set; now rewrite Hz.
Qed.

(** A run ends normally, and a run from a landed projectile ends on a landed
    one. *)
Lemma run_total (dts : list float) :
  forall this, exists this', run dts this = Normal this'.
Proof.
  induction dts as [|dt later IH]; intros this; cbn [ProjectileRun.run].
  - now exists this.
  - destruct (step_effect dt this) as (this1 & -> & _). apply IH.
Qed.

Lemma run_keeps_landed (dts : list float) (this this' : t) :
  run dts this = Normal this' ->
  reachedGround this = true -> reachedGround this' = true.
Proof.
  intros Hrun Hground. destruct dts as [|dt later].
  - now injection Hrun as <-.
  - rewrite run_on_ground in Hrun by (trivial; discriminate).
    injection Hrun as <-. exact Hground.
Qed.

(** X2.  The log is append-only and counts the ticks in flight: a run keeps
    the samples it found and adds at most one per tick, exactly one per tick
    when the projectile is still in flight at the end.  No sample it adds is
    below the ground or flagged as an apex. *)
Theorem run_log (dts : list float) :
  forall this,
    exists this' added,
      run dts this = Normal this'
      /\ dataPoints this' = dataPoints this ++ added
      /\ (length added <= length dts)%nat
      /\ (reachedGround this' = false -> length added = length dts)
      /\ Forall (fun sample =>
                   (Vector2.y (DataPoint.position sample) <? 0) = false
                   /\ DataPoint.apex sample = false) added.
Proof.
  induction dts as [|dt later IH]; intros this; cbn [ProjectileRun.run].
  - exists this, []. rewrite app_nil_r. repeat split; auto.
  - destruct (step_effect dt this) as (this1 & Hstep & _ & _ & _ & _ & _ & Hpath).
    rewrite Hstep.
    destruct (IH this1) as (this' & added & Hrun & Hlog & Hlen & Hcount & Hall).
    rewrite Hrun.
    destruct Hpath as [[Hground ->]
                      | [(Hground & Hground1 & Hy & _ & Hlog1)
                        | (Hground & Hground1 & Hy & _ & Hlog1)]].
    + exists this', added. cbn in Hlog. repeat split; auto.
      * cbn. lia.
      * intros Hfinal.
        now rewrite (run_keeps_landed later _ _ Hrun Hground) in Hfinal.
    + exists this', (sampleOf this1 :: added).
      rewrite Hlog, Hlog1, <- app_assoc. repeat split; auto.
      * cbn. lia.
      * intros Hfinal. cbn. now rewrite Hcount.
      * constructor; [|exact Hall]. cbn. split; [|reflexivity].
        destruct (y this1 <? 0) eqn:Hlt; trivial.
        now rewrite (ltb_leb _ _ Hlt) in Hy.
    + exists this', (sampleOf this1 :: added).
      rewrite Hlog, Hlog1, <- app_assoc. repeat split; auto.
      * cbn. lia.
      * intros Hfinal.
        now rewrite (run_keeps_landed later _ _ Hrun Hground1) in Hfinal.
      * constructor; [|exact Hall]. cbn. split; [|reflexivity].
        now rewrite (eqb_ltb _ _ 0 Hy).
Qed.

(** X3.  The scoring collaborator hears of a flight once, when it lands, and
    of nothing else: after a run from a projectile in flight the
    notifications are those found before, followed by the landing abscissa if
    the projectile has landed, and by nothing if it is still in flight.  The
    abscissa notified is the one computed for the landing, which is then
    assigned to [x]: it is the same number as [x], and [x] itself unless both
    are zeros. *)
Theorem run_notifies_once (dts : list float) :
  forall this,
    reachedGround this = false ->
    exists this' landingX,
      run dts this = Normal this'
      /\ notifiedOf this'
         = notifiedOf this ++ (if reachedGround this' then [landingX] else [])
      /\ PropertySet.sameValueZero landingX (x this') = true
      /\ ((x this' =? 0) = false -> landingX = x this').
Proof.
  assert (Hexact : forall v w,
             PropertySet.sameValueZero v w = true ->
             (w =? 0) = false -> v = w).
  { intros v w Hsame Hw. apply sameValueZero_iff in Hsame.
    destruct Hsame as [H | [_ H]]; [exact H | congruence]. }
  induction dts as [|dt later IH]; intros this Hflying;
    cbn [ProjectileRun.run].
  - exists this, (x this). rewrite Hflying, app_nil_r.
    repeat split. apply sameValueZero_refl.
  - destruct (step_effect dt this) as (this1 & Hstep & _ & _ & _ & _ & _ & Hpath).
    rewrite Hstep.
    destruct Hpath as [[Hground _]
                      | [(_ & Hground1 & _ & Hnote & _)
                        | (_ & Hground1 & _ & (landingX & Hnote & Hsame) & _)]].
    + congruence.
    + destruct (IH this1 Hground1) as (this' & landingX & Hrun & Hnote' & Hsame).
      exists this', landingX. split; [exact Hrun|].
      split; [now rewrite Hnote', Hnote | exact Hsame].
    + destruct later as [|dt' later'].
      * exists this1, landingX. split; [reflexivity|]. rewrite Hground1.
        split; [exact Hnote|]. split; [exact Hsame | now apply Hexact].
      * exists (stopped this1), landingX.
        split; [apply run_on_ground; trivial; discriminate|].
        cbn. rewrite Hground1.
        split; [exact Hnote|]. split; [exact Hsame | now apply Hexact].
Qed.

Lemma step_recorded (dt : float) (this this' : t) :
  step dt this = Normal this' ->
  reachedGround this = false \/ recorded this ->
  recorded this'.
Proof.
  intros Hstep Hbefore.
  destruct (step_effect dt this) as (this1 & Hstep1 & _ & _ & _ & _ & _ & Hpath).
  rewrite Hstep in Hstep1. injection Hstep1 as <-.
  destruct Hpath as [[Hground ->]
                    | [(_ & Hground1 & Hy & _ & Hlog)
                      | (_ & Hground1 & Hy & _ & Hlog)]].
  - destruct Hbefore as [Hflying | Hrec]; [congruence|]. exact Hrec.
  - split; [now exists (dataPoints this)|]. now rewrite Hground1.
  - split; [now exists (dataPoints this)|]. now rewrite Hground1.
Qed.

Lemma run_recorded (dts : list float) :
  forall this this',
    run dts this = Normal this' -> recorded this -> recorded this'.
Proof.
  induction dts as [|dt later IH]; intros this this';
    cbn [ProjectileRun.run].
  - now intros [= <-].
  - destruct (step_effect dt this) as (this1 & Hstep & _).
    rewrite Hstep. intros Hrun Hrec.
    apply (IH this1 this' Hrun), (step_recorded dt this this1 Hstep).
    now right.
Qed.

(** The height a projectile lands with is the 0 that [step] assigns, unless
    the height before the landing step was -0, which is then left. *)
Lemma step_lands_at_zero (dt : float) (this this' : t) :
  reachedGround this = false ->
  step dt this = Normal this' ->
  y this <> neg_zero ->
  (reachedGround this' = true -> y this' = 0)
  /\ (reachedGround this' = false -> y this' <> neg_zero).
Proof.
  intros Hflying Hstep Hheight.
  destruct (newY host constants dt this <=? 0) eqn:Hy.
  - rewrite (ProjectileSpec.step_landing host constants dt this Hflying Hy)
      in Hstep.
    injection Hstep as <-. cbn. split; [|discriminate].
    intros _. now apply set_zero.
  - rewrite (ProjectileSpec.step_flying host constants dt this Hflying Hy)
      in Hstep.
    injection Hstep as <-.
    cbn [y reachedGround]. split; [discriminate|].
    intros _ Hneg. rewrite <- (set_leb (y this)), Hneg in Hy.
    discriminate.
Qed.

Lemma run_lands_at_zero (dts : list float) :
  forall this this',
    reachedGround this = false ->
    y this <> neg_zero ->
    run dts this = Normal this' ->
    reachedGround this' = true -> y this' = 0.
Proof.
  induction dts as [|dt later IH]; intros this this' Hflying Hheight;
    cbn [ProjectileRun.run].
  - intros [= <-]. congruence.
  - destruct (step_effect dt this) as (this1 & Hstep & _).
    rewrite Hstep. intros Hrun Hfinal.
    destruct (step_lands_at_zero dt this this1 Hflying Hstep Hheight)
      as [Hlanded Hinflight].
    destruct (reachedGround this1) eqn:Hground1.
    + destruct later as [|dt' later'].
      * injection Hrun as <-. now apply Hlanded.
      * rewrite run_on_ground in Hrun by (trivial; discriminate).
        injection Hrun as <-. cbn. now apply Hlanded.
    + apply (IH this1 this'); auto.
Qed.

(** X4.  After a run of at least one tick from a projectile in flight, the
    last sample of the log is the state the projectile is in: its time, its
    abscissa and its height.  If it has landed its height is zero, so the log
    ends on the ground, and it is 0 unless the run started at the height -0;
    if it is in flight its height is not at or below 0.  The log is then not
    empty, and [getNearestPoint] finds a sample. *)
Theorem run_last_sample (dts : list float) (this : t) :
  reachedGround this = false ->
  dts <> [] ->
  exists this',
    run dts this = Normal this'
    /\ (exists earlier, dataPoints this' = earlier ++ [sampleOf this'])
    /\ (reachedGround this' = true -> (y this' =? 0) = true)
    /\ (reachedGround this' = true -> y this <> neg_zero -> y this' = 0)
    /\ (reachedGround this' = false -> (y this' <=? 0) = false)
    /\ forall qx qy, getNearestPoint this' qx qy <> None.
Proof.
  intros Hflying Hdts. destruct dts as [|dt later]; [congruence|].
  destruct (run_total (dt :: later) this) as (this' & Hrun).
  exists this'. split; [exact Hrun|].
  pose proof (run_lands_at_zero (dt :: later) this this' Hflying) as Hzero.
  cbn [ProjectileRun.run] in Hrun.
  destruct (step_effect dt this) as (this1 & Hstep & _).
  rewrite Hstep in Hrun.
  assert (Hrec : recorded this').
  { apply (run_recorded later this1 this' Hrun).
    apply (step_recorded dt this this1 Hstep). now left. }
  destruct Hrec as [(earlier & Hlog) Hy].
  split; [now exists earlier|].
  split; [intros Hg; now rewrite Hg in Hy|].
  split.
  { intros Hg Hheight. apply Hzero; trivial.
    cbn [ProjectileRun.run]. now rewrite Hstep. }
  split; [intros Hg; now rewrite Hg in Hy|].
  intros qx qy. unfold getNearestPoint. rewrite Hlog.
  destruct earlier; discriminate.
Qed.

(** X5.  No run changes what the projectile is made of or the air it flies
    in: mass, diameter and drag coefficient, and the air resistance switch
    and the altitude of the model, are after the run what they were
    before. *)
Theorem run_frame (dts : list float) :
  forall this,
    exists this',
      run dts this = Normal this'
      /\ mass this' = mass this
      /\ diameter this' = diameter this
      /\ dragCoefficient this' = dragCoefficient this
      /\ airResistanceOn (projectileMotionModel this')
         = airResistanceOn (projectileMotionModel this)
      /\ altitude (projectileMotionModel this')
         = altitude (projectileMotionModel this).
Proof.
  induction dts as [|dt later IH]; intros this; cbn [ProjectileRun.run].
  - exists this. repeat split.
  - destruct (step_effect dt this)
      as (this1 & Hstep & Hm & Hd & Hc & Hon & Halt & _).
    rewrite Hstep.
    destruct (IH this1) as (this' & Hrun & Hm' & Hd' & Hc' & Hon' & Halt').
    exists this'. split; [exact Hrun|].
    repeat split; congruence.
Qed.

(** A projectile in flight whose height is NaN flies on with a height that is
    NaN. *)
Lemma step_NaN_height (dt : float) (this : t) :
  reachedGround this = false ->
  isNaN (y this) ->
  exists this',
    step dt this = Normal this'
    /\ reachedGround this' = false /\ isNaN (y this').
Proof.
  intros Hflying Hnan.
  assert (HnewY : isNaN (newY host constants dt this))
    by (unfold newY; now apply add_NaN_l, add_NaN_l).
  rewrite (ProjectileSpec.step_flying host constants dt this Hflying
             (isNaN_not_leb _ _ HnewY)).
  eexists. split; [reflexivity|]. cbn [y reachedGround].
  split; [reflexivity|]. now apply set_isNaN.
Qed.

Lemma run_flies_on (dts : list float) :
  forall this,
    reachedGround this = false ->
    isNaN (y this) ->
    exists this',
      run dts this = Normal this'
      /\ reachedGround this' = false /\ isNaN (y this').
Proof.
  induction dts as [|dt later IH]; intros this Hflying Hnan;
    cbn [ProjectileRun.run].
  - now exists this.
  - destruct (step_NaN_height dt this Hflying Hnan)
      as (this1 & -> & Hflying1 & Hnan1).
    now apply IH.
Qed.

(** X6.  A projectile in flight whose height is NaN never lands: after every
    run it is still in flight and its height is still NaN. *)
Theorem run_NaN_height (dts : list float) (this : t) :
  reachedGround this = false ->
  isNaN (y this) ->
  exists this',
    run dts this = Normal this'
    /\ reachedGround this' = false /\ isNaN (y this').
Proof. apply run_flies_on. Qed.

(** With air resistance off and a mass of zero the new vertical acceleration
    is NaN: the drag force is zero or NaN, and the division by the mass gives
    NaN. *)
Lemma newYAcceleration_massless (this : t) :
  (mass this =? 0) = true ->
  airResistanceOn (projectileMotionModel this) = false ->
  isNaN (newYAcceleration host constants this).
Proof.
  intros Hmass Hoff. unfold newYAcceleration, dragForceY.
  rewrite (ProjectileSpec.airDensity_off host _ Hoff).
  apply sub_NaN_r, div_zero_by_zero; [|now apply eqb_zero].
  do 4 apply mul_zero_or_NaN. left. now exists false.
Qed.

(** X7.  A projectile of mass zero, with air resistance off, never lands:
    from the first tick on its height is NaN, and after every run of at least
    one tick it is still in flight. *)
Theorem run_massless (dts : list float) (this : t) :
  (mass this =? 0) = true ->
  airResistanceOn (projectileMotionModel this) = false ->
  reachedGround this = false ->
  dts <> [] ->
  exists this',
    run dts this = Normal this'
    /\ reachedGround this' = false /\ isNaN (y this').
Proof.
  intros Hmass Hoff Hflying Hdts.
  destruct dts as [|dt later]; [congruence|]. cbn [ProjectileRun.run].
  assert (HnewY : isNaN (newY host constants dt this)).
  { unfold newY. apply add_NaN_r, mul_NaN_l, mul_NaN_l, mul_NaN_r.
    now apply newYAcceleration_massless. }
  rewrite (ProjectileSpec.step_flying host constants dt this Hflying
             (isNaN_not_leb _ _ HnewY)).
  apply run_flies_on; [reflexivity|].
  cbn [y]. now apply set_isNaN.
Qed.

(** A step in flight assigns the elapsed time plus [dt] to the elapsed
    time. *)
Lemma step_time (dt : float) (this this' : t) :
  reachedGround this = false ->
  step dt this = Normal this' ->
  totalTime this' = PropertySet.set (totalTime this) (totalTime this + dt)
  /\ PropertySet.sameValueZero (totalTime this') (totalTime this + dt) = true.
Proof.
  intros Hflying.
  destruct (newY host constants dt this <=? 0) eqn:Hy.
  - rewrite (ProjectileSpec.step_landing host constants dt this Hflying Hy).
    intros [= <-]. split; [reflexivity | apply set_sameValueZero].
  - rewrite (ProjectileSpec.step_flying host constants dt this Hflying Hy).
    intros [= <-]. split; [reflexivity | apply set_sameValueZero].
Qed.

(** A run of no tick or more that ends on a landed projectile leaves the
    elapsed time the projectile landed with. *)
Lemma run_keeps_time (dts : list float) (this this' : t) :
  reachedGround this = true ->
  run dts this = Normal this' ->
  totalTime this' = totalTime this.
Proof.
  intros Hground Hrun. destruct dts as [|dt later].
  - now injection Hrun as <-.
  - rewrite run_on_ground in Hrun by (trivial; discriminate).
    now injection Hrun as <-.
Qed.

(** X12.  The elapsed time is the time before the run plus the time steps of
    the ticks up to the one the projectile lands on, that one included, added
    one after the other; the ticks after the landing add nothing.  The tick
    the projectile lands on is tick [n]: after fewer ticks it is in flight,
    after [n] it has landed with the elapsed time it keeps.  For a projectile
    still in flight these are all the ticks of the run.  The elapsed time is
    the same number as that sum: each tick assigns the time plus [dt] to a
    property. *)
Theorem run_elapsed_time (dts : list float) :
  forall this,
    reachedGround this = false ->
    exists this' n,
      run dts this = Normal this'
      /\ (n <= length dts)%nat
      /\ PropertySet.sameValueZero (totalTime this')
           (fold_left PrimFloat.add (firstn n dts) (totalTime this)) = true
      /\ (forall k, (k < n)%nat ->
            exists flying,
              run (firstn k dts) this = Normal flying
              /\ reachedGround flying = false)
      /\ (reachedGround this' = true ->
            exists landed,
              run (firstn n dts) this = Normal landed
              /\ reachedGround landed = true
              /\ totalTime this' = totalTime landed)
      /\ (reachedGround this' = false -> n = length dts).
Proof.
  induction dts as [|dt later IH]; intros this Hflying;
    cbn [ProjectileRun.run].
  - exists this, O. split; [reflexivity|]. split; [cbn; lia|].
    split; [apply sameValueZero_refl|].
    split; [intros k Hk; lia|]. split; [congruence | reflexivity].
  - destruct (step_effect dt this) as (this1 & Hstep & _).
    destruct (step_time dt this this1 Hflying Hstep) as [_ Htime].
    rewrite Hstep.
    destruct (reachedGround this1) eqn:Hground1.
    + destruct (run_total later this1) as (this' & Hrun).
      pose proof (run_keeps_time later this1 this' Hground1 Hrun) as Hkept.
      exists this', 1%nat. split; [exact Hrun|].
      split; [cbn; lia|]. split; [cbn [firstn fold_left]; now rewrite Hkept|].
      split; [|split].
      * intros k Hk. assert (k = O) as -> by lia.
        exists this. now split.
      * intros _. exists this1. cbn [firstn ProjectileRun.run].
        rewrite Hstep. now repeat split.
      * intros Hfinal.
        now rewrite (run_keeps_landed later _ _ Hrun Hground1) in Hfinal.
    + destruct (IH this1 Hground1)
        as (this' & n & Hrun & Hn & Hsum & Hbefore & Hlanded & Hall).
      exists this', (S n). split; [exact Hrun|].
      split; [cbn; lia|]. split; [|split; [|split]].
      * cbn [firstn fold_left].
        apply (sameValueZero_trans _ _ _ Hsum).
        now apply sameValueZero_sum.
      * intros [|k] Hk; [exists this; now split|].
        destruct (Hbefore k) as (flying & Hrunk & Hflyingk); [lia|].
        exists flying. cbn [firstn ProjectileRun.run]. rewrite Hstep.
        now split.
      * intros Hfinal.
        destruct (Hlanded Hfinal) as (landed & Hrunn & Hgroundn & Htimen).
        exists landed. cbn [firstn ProjectileRun.run]. rewrite Hstep.
        now repeat split.
      * intros Hfinal. cbn. now rewrite (Hall Hfinal).
Qed.

End Run.

(** *** Runs of the pumpkin *)

(** The run of the hypothesis [Hrun], read off by evaluation. *)
Ltac run_known Hrun :=
  match type of Hrun with
  | ?l = Normal _ =>
      let c := eval vm_compute in l in
      change l with c in Hrun; injection Hrun as <-
  end.

(** Two more ticks leave the landed pumpkin where it is, at rest. *)
Lemma run_landed_example :
  run exampleHost exampleConstants [0.5; 0.5] landedPumpkin
  = Normal (stopped landedPumpkin).
Proof.
  exact (proj1 (run_landed exampleHost exampleConstants [0.5; 0.5]
                  landedPumpkin eq_refl ltac:(discriminate))).
Defined.

(** Two ticks in flight add two samples to the empty log of the pumpkin. *)
Lemma run_log_example :
  exists this' added,
    run exampleHost exampleConstants [0.5; 0.25] (pumpkinAt 4.905)
    = Normal this'
    /\ dataPoints this' = [] ++ added
    /\ length added = 2%nat.
Proof.
  destruct (run_log exampleHost exampleConstants [0.5; 0.25] (pumpkinAt 4.905))
    as (this' & added & Hrun & Hlog & _ & Hcount & _).
  exists this', added. split; [exact Hrun|]. split; [exact Hlog|].
  apply Hcount. run_known Hrun. reflexivity.
Defined.

(** Half a second in flight, then a tick of 2 s on which the pumpkin lands
    3 m away: the scoring collaborator has heard of 3, once. *)
Lemma run_notifies_once_example :
  exists this',
    run exampleHost exampleConstants [0.5; 2] (pumpkinAt 4.905) = Normal this'
    /\ reachedGround this' = true
    /\ notified (scoreModel (projectileMotionModel this')) = [3].
Proof.
  destruct (run_notifies_once exampleHost exampleConstants [0.5; 2]
              (pumpkinAt 4.905) eq_refl)
    as (this' & landingX & Hrun & Hnote & _ & Hexact).
  exists this'. split; [exact Hrun|]. rewrite Hnote. run_known Hrun.
  rewrite (Hexact eq_refl). split; reflexivity.
Defined.

(** After that run the log ends on the landing sample, on the ground. *)
Lemma run_last_sample_example :
  exists this',
    run exampleHost exampleConstants [0.5; 2] (pumpkinAt 4.905) = Normal this'
    /\ (exists earlier, dataPoints this' = earlier ++ [DataPoint.new 2.5 3 0])
    /\ y this' = 0.
Proof.
  destruct (run_last_sample exampleHost exampleConstants [0.5; 2]
              (pumpkinAt 4.905) eq_refl)
    as (this' & Hrun & (earlier & Hlog) & _ & Hy & _); [discriminate|].
  exists this'. split; [exact Hrun|]. split.
  - exists earlier. rewrite Hlog. run_known Hrun. reflexivity.
  - apply Hy.
    + run_known Hrun. reflexivity.
    + intros Hneg.
      assert (Hzero : (y (pumpkinAt 4.905) =? 0) = (neg_zero =? 0))
        by now rewrite Hneg.
      discriminate Hzero.
Defined.

(** A pumpkin whose height is NaN is in flight after a tick, at a height that
    is NaN. *)
Lemma run_NaN_height_example :
  exists this',
    run exampleHost exampleConstants [0.5] (pumpkinAt nan) = Normal this'
    /\ reachedGround this' = false /\ is_nan (y this') = true.
Proof.
  exact (run_NaN_height exampleHost exampleConstants [0.5] (pumpkinAt nan)
           eq_refl eq_refl).
Defined.

(** The pumpkin without mass is in flight after two ticks, at a height that
    is NaN. *)
Lemma run_massless_example :
  exists this',
    run exampleHost exampleConstants [0.5; 0.5] weightlessPumpkin
    = Normal this'
    /\ reachedGround this' = false /\ is_nan (y this') = true.
Proof.
  apply (run_massless exampleHost exampleConstants [0.5; 0.5]
           weightlessPumpkin); try reflexivity.
  discriminate.
Defined.

(** The pumpkin lands on the second of three ticks: the elapsed time is the
    sum of the first two. *)
Lemma run_elapsed_time_example :
  exists this',
    run exampleHost exampleConstants [0.5; 2; 1] (pumpkinAt 4.905)
    = Normal this'
    /\ reachedGround this' = true /\ totalTime this' = 0 + 0.5 + 2.
Proof.
  destruct (run_elapsed_time exampleHost exampleConstants [0.5; 2; 1]
              (pumpkinAt 4.905) eq_refl) as (this' & n & Hrun & _).
  exists this'. split; [exact Hrun|]. run_known Hrun.
  split; reflexivity.
Defined.

End ProjectileRunSpec.

(** ** The nearest-point query as the log grows *)
Module NearestPointGrowthSpec.
Import Projectile.

Section Query.

Variables x y : float.

Local Abbreviation dist p := (DataPoint.distanceXY p x y).

(** The scan over a log with one more sample ends with one more turn. *)
Lemma nearestLoop_snoc (rest : list DataPoint.t) (sample : DataPoint.t) :
  forall best,
    nearestLoop x y (rest ++ [sample]) best (dist best)
    = (let r := nearestLoop x y rest best (dist best) in
       if dist sample <=? dist r then sample else r).
Proof.
  induction rest as [|current rest IH]; intros best;
    cbn [nearestLoop app].
  - reflexivity.
  - destruct (DataPoint.distanceXY current x y <=? DataPoint.distanceXY best x y);
      apply IH.
Qed.

(** X8.  The query follows the log sample by sample: on a log with one more
    sample the nearest point is the new sample when the log was empty or when
    the new sample is at most as far as the nearest point of the log without
    it (a tie goes to the new sample), and is that nearest point otherwise. *)
Theorem nearestIn_snoc (log : list DataPoint.t) (sample : DataPoint.t) :
  nearestIn (log ++ [sample]) x y
  = Some match nearestIn log x y with
         | None => sample
         | Some nearest =>
             if DataPoint.distanceXY sample x y
                <=? DataPoint.distanceXY nearest x y
             then sample else nearest
         end.
Proof.
  destruct log as [|first rest].
  - cbn [app]. rewrite NearestPointSpec.nearestIn_cons. reflexivity.
  - cbn [app]. rewrite !NearestPointSpec.nearestIn_cons.
    now rewrite nearestLoop_snoc.
Qed.

End Query.

End NearestPointGrowthSpec.

(** ** The tracer through its listeners *)
Module TracerOpsSpec.
Import Tracer TracerOps.

Section Ops.

Variable host : Host.
Variable constants : ProjectileMotionConstants.

Local Abbreviation examine := (Tracer.examine host constants).
Local Abbreviation updateDataLoop := (Tracer.updateDataLoop host constants).
Local Abbreviation updateData := (Tracer.updateData host constants).
Local Abbreviation readableWithinRange :=
  (Tracer.readableWithinRange host constants).
Local Abbreviation updateDataIfWithinRange :=
  (Tracer.updateDataIfWithinRange host constants).

(** A turn of the loop reads the position of the tracer and nothing else of
    it. *)
Lemma examine_position (a b : t) (T : Trajectory.t) :
  positionProperty a = positionProperty b -> examine a T = examine b T.
Proof.
  intros H.
  unfold Tracer.examine, apexWithinRange, Tracer.readableWithinRange,
    nearestOf, withinRange.
  now rewrite H.
Qed.

Lemma updateDataLoop_position (a b : t) (n : nat) :
  positionProperty a = positionProperty b ->
  trajectories a = trajectories b ->
  updateDataLoop a n = updateDataLoop b n.
Proof.
  intros Hp Ht. induction n as [|n IH]; cbn [Tracer.updateDataLoop]; trivial.
  rewrite Ht, IH.
  destruct (nth_error (trajectories b) n) as [T|]; trivial.
  now rewrite (examine_position a b T Hp).
Qed.

Lemma updateData_position (a b : t) :
  positionProperty a = positionProperty b ->
  trajectories a = trajectories b ->
  dataPointProperty (updateData a) = dataPointProperty (updateData b).
Proof.
  intros Hp Ht. cbn. rewrite Ht. now apply updateDataLoop_position.
Qed.

(** X9.  What [updateData] shows depends on the position and the
    trajectories, not on what was shown: after any sample is put in
    [dataPointProperty], or after [updateDataIfWithinRange], it shows what it
    would have shown; and run twice it changes nothing the second time. *)
Theorem updateData_overrides (this : t) (shown point : option DataPoint.t) :
  dataPointProperty (updateData (setDataPoint this shown))
  = dataPointProperty (updateData this)
  /\ updateData (updateDataIfWithinRange this point) = updateData this
  /\ updateData (updateData this) = updateData this.
Proof.
  split; [now apply updateData_position|]. split.
  - unfold Tracer.updateDataIfWithinRange.
    destruct (readableWithinRange this point); trivial.
    unfold Tracer.updateData. cbn.
    now rewrite (updateDataLoop_position (setDataPoint this point) this).
  - unfold Tracer.updateData. cbn.
    now rewrite (updateDataLoop_position
                   (setDataPoint this
                      (updateDataLoop this (length (trajectories this))))
                   this).
Qed.

(** The loop below the most recent trajectory does not see it. *)
Lemma updateDataLoop_older (this : t) (older : list Trajectory.t)
    (T : Trajectory.t) (n : nat) :
  trajectories this = older ++ [T] ->
  (n <= length older)%nat ->
  updateDataLoop this n = updateDataLoop (setTrajectories this older) n.
Proof.
  intros Hts. induction n as [|n IH]; intros Hn;
    cbn [Tracer.updateDataLoop]; trivial.
  rewrite IH by lia. cbn [trajectories setTrajectories].
  rewrite Hts, nth_error_app1 by lia.
  now destruct (nth_error older n).
Qed.

(** X10.  The most recent trajectory is asked first.  If its apex is within
    the sensing radius, the apex is shown; else, if its nearest sample is
    readable and within the sensing radius, that sample is shown; else
    [updateData] shows what it shows without that trajectory. *)
Theorem updateData_newest_first (this : t) (older : list Trajectory.t)
    (T : Trajectory.t) :
  trajectories this = older ++ [T] ->
  (apexWithinRange this T = true ->
   dataPointProperty (updateData this) = Trajectory.apexPoint T)
  /\ (apexWithinRange this T = false ->
      readableWithinRange this (nearestOf this T) = true ->
      dataPointProperty (updateData this) = nearestOf this T)
  /\ (apexWithinRange this T = false ->
      readableWithinRange this (nearestOf this T) = false ->
      dataPointProperty (updateData this)
      = dataPointProperty (updateData (setTrajectories this older))).
Proof.
  intros Hts.
  assert (Hloop : updateDataLoop this (length (trajectories this))
                  = match examine this T with
                    | Some point => Some point
                    | None => updateDataLoop (setTrajectories this older)
                                (length older)
                    end).
  { rewrite Hts at 1. rewrite length_app. cbn [length].
    replace (length older + 1)%nat with (S (length older)) by lia.
    cbn [Tracer.updateDataLoop].
    rewrite Hts at 1. rewrite nth_error_app2, Nat.sub_diag by lia.
    cbn [nth_error].
    now rewrite (updateDataLoop_older this older T (length older) Hts). }
  cbn [Tracer.updateData dataPointProperty setDataPoint trajectories
       setTrajectories]. rewrite Hloop. unfold Tracer.examine.
  repeat split.
  - intros Hapex. rewrite Hapex.
    unfold apexWithinRange in Hapex.
    now destruct (Trajectory.apexPoint T).
  - intros Hapex Hread. rewrite Hapex, Hread.
    unfold Tracer.readableWithinRange in Hread.
    now destruct (nearestOf this T).
  - intros Hapex Hread. now rewrite Hapex, Hread.
Qed.

(** What [updateData] shows is within the sensing radius. *)
Lemma updateData_withinRange (this : t) (p : DataPoint.t) :
  dataPointProperty (updateData this) = Some p -> withinRange this p = true.
Proof.
  cbn. intros Hp.
  destruct (TracerSpec.updateDataLoop_Some host constants this _ p Hp)
    as (i & T & _ & _ & Hex).
  apply TracerSpec.examine_Some in Hex.
  destruct Hex as [[_ H] | (_ & _ & _ & H)]; exact H.
Qed.

(** [shownWithinRange this]: the sample shown, if any, is within the sensing
    radius of the position. *)
Local Abbreviation shownWithinRange this :=
  (forall p, dataPointProperty this = Some p -> withinRange this p = true).

Lemma apply_shownWithinRange (tracerX tracerY : float) (this : t) (op : Op) :
  shownWithinRange this ->
  shownWithinRange (apply host constants tracerX tracerY this op).
Proof.
  intros Hinv p. destruct op as [position|ts|remaining|point| |];
    cbn [apply].
  - unfold moved. intros Hp. now apply updateData_withinRange in Hp.
  - cbn. apply Hinv.
  - unfold disposed. intros Hp. now apply updateData_withinRange in Hp.
  - unfold Tracer.updateDataIfWithinRange.
    destruct (readableWithinRange this point) eqn:Hr.
    + apply TracerSpec.readableWithinRange_iff in Hr.
      destruct Hr as (q & -> & _ & Hq). cbn. now intros [= <-].
    + apply Hinv.
  - intros Hp. now apply updateData_withinRange in Hp.
  - discriminate.
Qed.

Lemma fold_shownWithinRange (tracerX tracerY : float) (ops : list Op) :
  forall this,
    shownWithinRange this ->
    shownWithinRange (fold_left (apply host constants tracerX tracerY) ops this).
Proof.
  induction ops as [|op ops IH]; intros this Hinv; cbn [fold_left]; trivial.
  now apply IH, apply_shownWithinRange.
Qed.

(** X11.  From its construction on, whatever is done to the tracer in
    whatever order (drags, trajectories added or disposed, points handed to
    [updateDataIfWithinRange], calls of [updateData], resets), a sample that it
    shows is within the sensing radius of the position it is at. *)
Theorem shown_sample_within_range (trajectories : list Trajectory.t)
    (tracerX tracerY : float) (ops : list Op) (p : DataPoint.t) :
  let this := after host constants trajectories tracerX tracerY ops in
  dataPointProperty this = Some p ->
  (Vector2.distance (DataPoint.position p) (positionProperty this)
   <=? SENSING_RADIUS) = true.
Proof.
  intros this. subst this. unfold after.
  apply fold_shownWithinRange. discriminate.
Qed.

End Ops.

(** *** The tracer over the lob, through its listeners *)

(** Over the lob and a projectile fired after it, 0.1 m above the cannon: the
    later trajectory has no apex, its sample at the cannon is readable and
    within range, and that sample is shown. *)
Lemma updateData_newest_first_example :
  dataPointProperty
    (Tracer.updateData exampleHost exampleConstants
       (tracerAt 0.1 [lob; fresh] None))
  = Some (DataPoint.new 0 0 0).
Proof.
  destruct (updateData_newest_first exampleHost exampleConstants
              (tracerAt 0.1 [lob; fresh] None) [lob] fresh eq_refl)
    as (_ & Hnearest & _).
  exact (Hnearest eq_refl eq_refl).
Defined.

(** A tracer built in the toolbox at (5, 5) is dragged to 0.1 m above the
    cannon, a projectile is fired and its first sample handed over: the
    sample is shown, and it is within the sensing radius. *)
Lemma shown_sample_within_range_example :
  dataPointProperty
    (after exampleHost exampleConstants [lob] 5 5
       [Drag {| Vector2.x := 0; Vector2.y := 0.1 |};
        TrajectoryAdded [lob; fresh];
        PointAdded (Some (DataPoint.new 0 0 0))])
  = Some (DataPoint.new 0 0 0)
  /\ (Vector2.distance (DataPoint.position (DataPoint.new 0 0 0))
        {| Vector2.x := 0; Vector2.y := 0.1 |}
      <=? SENSING_RADIUS) = true.
Proof.
  split; [reflexivity|].
  exact (shown_sample_within_range exampleHost exampleConstants [lob] 5 5
           [Drag {| Vector2.x := 0; Vector2.y := 0.1 |};
            TrajectoryAdded [lob; fresh];
            PointAdded (Some (DataPoint.new 0 0 0))]
           (DataPoint.new 0 0 0) eq_refl).
Defined.

End TracerOpsSpec.

(** ** Saving and restoring a trajectory: [TrajectoryIO] *)
Module TrajectoryIOSpec.
Import TrajectoryIO.

(** *** Objects *)

Lemma get_set_same {A : Type} (object : Obj A) (key : String.string) (value : A) :
  get (set object key value) key = Some value.
Proof.
  induction object as [|[k v] rest IH]; cbn.
  - now rewrite String.eqb_refl.
  - destruct (String.eqb k key) eqn:Hk; cbn; now rewrite Hk.
Qed.

Lemma get_set_other {A : Type} (object : Obj A) (key key' : String.string)
    (value : A) :
  key <> key' -> get (set object key value) key' = get object key'.
Proof.
  intros Hne. induction object as [|[k v] rest IH]; cbn.
  - now rewrite (proj2 (String.eqb_neq key key') Hne).
  - destruct (String.eqb k key) eqn:Hk; cbn.
    + apply String.eqb_eq in Hk. subst k.
      now rewrite (proj2 (String.eqb_neq key key') Hne).
    + now rewrite IH.
Qed.

Lemma get_None {A : Type} (object : Obj A) (key : String.string) :
  get object key = None <-> ~ In key (keys object).
Proof.
  induction object as [|[k v] rest IH]; cbn.
  - tauto.
  - destruct (String.eqb_spec k key) as [-> | Hne].
    + split; [discriminate | intros H; exfalso; apply H; now left].
    + rewrite IH. split.
      * intros H [Heq | Hin]; [congruence | tauto].
      * tauto.
Qed.

Lemma hasOwnProperty_set {A : Type} (object : Obj A)
    (key key' : String.string) (value : A) :
  hasOwnProperty (set object key value) key'
  = (String.eqb key key' || hasOwnProperty object key').
Proof.
  unfold hasOwnProperty. destruct (String.eqb_spec key key') as [<- | Hne].
  - now rewrite get_set_same.
  - now rewrite (get_set_other object key key' value Hne).
Qed.

Section IO.

Variables Value State : Type.
Variables NumberIO BooleanIO NullOrDataPointIO : IOType Value State.

Local Abbreviation ioTypeSchema :=
  (TrajectoryIO.ioTypeSchema Value State NumberIO BooleanIO NullOrDataPointIO).
Local Abbreviation toStateObject :=
  (TrajectoryIO.toStateObject Value State NumberIO BooleanIO NullOrDataPointIO).
Local Abbreviation fromStateObject :=
  (TrajectoryIO.fromStateObject Value State NumberIO BooleanIO
     NullOrDataPointIO).
Local Abbreviation setValue := (TrajectoryIO.setValue Value).

(** The callback of [fromStateObject] over some of the keys of the state
    object. *)
Lemma fromStateObject_loop (stateObject : Obj State) (names : list String.string) :
  (forall name, In name names -> In name (keys stateObject)) ->
  forall fromObject,
    forEach
      (fun fieldName fromObject =>
         match get ioTypeSchema fieldName, get stateObject fieldName with
         | Some phetioType, Some state =>
             Normal (set fromObject fieldName
                       (typeFromStateObject Value State phetioType state))
         | _, _ => Throw
         end) names fromObject = Throw
    <-> exists name, In name names /\ ~ In name fieldNames.
Proof.
  induction names as [|name later IH]; intros Hkeys fromObject;
    cbn [forEach].
  - split; [discriminate | intros (name & [] & _)].
  - assert (Hstate : get stateObject name <> None)
      by (rewrite get_None; intros H; apply H, Hkeys; now left).
    destruct (get stateObject name) as [state|]; [clear Hstate | congruence].
    pose proof (get_None ioTypeSchema name) as Hschema.
    change (keys ioTypeSchema) with fieldNames in Hschema.
    destruct (get ioTypeSchema name) as [phetioType|].
    + rewrite IH by (intros k Hk; apply Hkeys; now right). split.
      * intros (k & Hk & Hout). exists k. split; [now right | exact Hout].
      * intros (k & [<- | Hk] & Hout).
        -- discriminate (proj2 Hschema Hout).
        -- now exists k.
    + split; [|reflexivity]. intros _. exists name.
      split; [now left | now apply Hschema].
Qed.

(** X13.  [fromStateObject] fails exactly on a state object with a key that
    is not one of the six saved fields; the assertion of its loop does not
    catch such a key, the lookup of the key in the schema fails on it. *)
Theorem fromStateObject_fails (stateObject : Obj State) :
  fromStateObject stateObject = Throw
  <-> exists name, In name (keys stateObject) /\ ~ In name fieldNames.
Proof.
  unfold TrajectoryIO.fromStateObject. now apply fromStateObject_loop.
Qed.

(** Saved and read back, the six fields hold what the trajectory holds. *)
Lemma fromStateObject_toStateObject (trajectory : Obj Value) :
  roundTrips Value State NumberIO -> roundTrips Value State BooleanIO ->
  roundTrips Value State NullOrDataPointIO ->
  (forall name, In name fieldNames -> get trajectory name <> None) ->
  exists stateObject fromObject,
    toStateObject trajectory = Normal stateObject
    /\ keys stateObject = fieldNames
    /\ fromStateObject stateObject = Normal fromObject
    /\ keys fromObject = fieldNames
    /\ forall name, In name fieldNames ->
         get fromObject name = get trajectory name.
Proof.
  intros Hnumber Hboolean Hpoint Hfields.
  eexists. eexists. split; [reflexivity|]. split; [reflexivity|].
  split; [reflexivity|]. split; [reflexivity|].
  intros name Hname. pose proof (Hfields name Hname) as Hfield.
  cbn in Hname.
  destruct Hname as [<- | [<- | [<- | [<- | [<- | [<- | []]]]]]]; cbn;
    (destruct (get trajectory _) as [value|]; [|congruence]);
    f_equal; auto.
Qed.

(** The callback of [setValue] over some of the keys. *)
Lemma setValue_loop (assertions : bool) (fromObject : Obj Value)
    (names : list String.string) :
  (forall name, In name names -> In name (keys fromObject)) ->
  forall trajectory,
    assertions = false
    \/ (forall name, In name names -> hasOwnProperty trajectory name = true) ->
    exists trajectory',
      forEach
        (fun fieldName trajectory =>
           if assertions && negb (hasOwnProperty trajectory fieldName)
           then Throw
           else match get fromObject fieldName with
                | Some value => Normal (set trajectory fieldName value)
                | None => Throw
                end) names trajectory = Normal trajectory'
      /\ (forall name, In name names ->
            get trajectory' name = get fromObject name)
      /\ (forall name, ~ In name names ->
            get trajectory' name = get trajectory name).
Proof.
  induction names as [|name later IH]; intros Hkeys trajectory Hown;
    cbn [forEach].
  - exists trajectory. split; [reflexivity|]. split; [intros name []|reflexivity].
  - assert (Hguard : assertions && negb (hasOwnProperty trajectory name) = false).
    { destruct Hown as [-> | Hown]; [reflexivity|].
      rewrite (Hown name) by now left. apply andb_false_r. }
    rewrite Hguard.
    assert (Hvalue : get fromObject name <> None)
      by (rewrite get_None; intros H; apply H, Hkeys; now left).
    destruct (get fromObject name) as [value|] eqn:Hget; [|congruence].
    destruct (IH (fun k Hk => Hkeys k (or_intror Hk))
                (set trajectory name value)) as (trajectory' & Hrun & Hin & Hout).
    { destruct Hown as [Hoff | Hown]; [now left | right].
      intros k Hk. rewrite hasOwnProperty_set, (Hown k) by now right.
      apply orb_true_r. }
    exists trajectory'. split; [exact Hrun|]. split.
    + intros k [<- | Hk]; [|now apply Hin].
      destruct (in_dec String.string_dec name later) as [Hlater | Hlater].
      * now apply Hin.
      * now rewrite (Hout name Hlater), get_set_same.
    + intros k Hk. rewrite (Hout k) by (intros H; apply Hk; now right).
      apply get_set_other. intros ->. apply Hk. now left.
Qed.

Lemma setValue_loop_fails (fromObject : Obj Value) (names : list String.string) :
  forall trajectory,
    (exists name, In name names /\ hasOwnProperty trajectory name = false) ->
    forEach
      (fun fieldName trajectory =>
         if true && negb (hasOwnProperty trajectory fieldName)
         then Throw
         else match get fromObject fieldName with
              | Some value => Normal (set trajectory fieldName value)
              | None => Throw
              end) names trajectory = Throw.
Proof.
  induction names as [|name later IH]; intros trajectory (k & Hk & Hmissing);
    [destruct Hk|]. cbn [forEach andb].
  destruct (hasOwnProperty trajectory name) eqn:Hname; [|reflexivity].
  cbn [negb]. destruct (get fromObject name) as [value|]; [|reflexivity].
  apply IH. exists k. destruct Hk as [<- | Hk]; [congruence|].
  split; [exact Hk|].
  rewrite hasOwnProperty_set, Hmissing, orb_false_r.
  apply String.eqb_neq. intros ->. congruence.
Qed.

(** X14.  [setValue] writes the fields it is given and no other: every key of
    the object it is given holds the value of that object afterwards, and
    every other property of the trajectory is as it was.  It does so whenever
    assertions are off or the trajectory has all those keys; with assertions
    on and a key that the trajectory does not have, it fails. *)
Theorem setValue_writes (assertions : bool) (trajectory fromObject : Obj Value) :
  (assertions = false
   \/ (forall name, In name (keys fromObject) ->
         hasOwnProperty trajectory name = true) ->
   exists trajectory',
     setValue assertions trajectory fromObject = Normal trajectory'
     /\ (forall name, In name (keys fromObject) ->
           get trajectory' name = get fromObject name)
     /\ (forall name, ~ In name (keys fromObject) ->
           get trajectory' name = get trajectory name))
  /\ (assertions = true ->
      (exists name, In name (keys fromObject)
                    /\ hasOwnProperty trajectory name = false) ->
      setValue assertions trajectory fromObject = Throw).
Proof.
  unfold TrajectoryIO.setValue. split.
  - now apply setValue_loop.
  - intros ->. apply setValue_loop_fails.
Qed.

(** X15.  Saving a trajectory and restoring the state into another one makes
    the six saved fields of the second those of the first and leaves its
    other properties alone, when the IO types of the fields give back the
    values they are given, the first trajectory has the six fields, and the
    second has them too or assertions are off. *)
Theorem save_and_restore (assertions : bool) (saved restored : Obj Value) :
  roundTrips Value State NumberIO -> roundTrips Value State BooleanIO ->
  roundTrips Value State NullOrDataPointIO ->
  (forall name, In name fieldNames -> get saved name <> None) ->
  assertions = false
  \/ (forall name, In name fieldNames -> hasOwnProperty restored name = true) ->
  exists stateObject fromObject restored',
    toStateObject saved = Normal stateObject
    /\ fromStateObject stateObject = Normal fromObject
    /\ setValue assertions restored fromObject = Normal restored'
    /\ (forall name, In name fieldNames ->
          get restored' name = get saved name)
    /\ (forall name, ~ In name fieldNames ->
          get restored' name = get restored name).
Proof.
  intros Hnumber Hboolean Hpoint Hfields Hown.
  destruct (fromStateObject_toStateObject saved Hnumber Hboolean Hpoint Hfields)
    as (stateObject & fromObject & Hto & _ & Hfrom & Hkeys & Hsame).
  destruct (setValue_loop assertions fromObject (keys fromObject)
              (fun k Hk => Hk) restored)
    as (restored' & Hset & Hin & Hout).
  { now rewrite Hkeys. }
  exists stateObject, fromObject, restored'.
  split; [exact Hto|]. split; [exact Hfrom|]. split; [exact Hset|].
  rewrite Hkeys in Hin, Hout. split; [|exact Hout].
  intros name Hname. now rewrite (Hin name Hname), (Hsame name Hname).
Qed.

End IO.

End TrajectoryIOSpec.

(** *** Saving the pumpkin and restoring it into the ball *)
Module TrajectoryIOExamples.
Import String TrajectoryIO TrajectoryIOSpec Saved.

Lemma plainIO_roundTrips : roundTrips float float plainIO.
Proof. intros value. reflexivity. Qed.

(** The ball takes the fields of the pumpkin, its rank included, when it is
    given the pumpkin itself; a trajectory that has a mass only is refused
    when assertions are on. *)
Lemma setValue_writes_example :
  (exists trajectory',
     setValue float true ballObject pumpkinObject = Normal trajectory'
     /\ get trajectory' "mass" = Some 5
     /\ get trajectory' "rank" = Some 2)
  /\ setValue float true [("mass"%string, 1)] pumpkinObject = Throw.
Proof.
  destruct (setValue_writes float true ballObject pumpkinObject)
    as [Hwrites _].
  destruct (setValue_writes float true [("mass"%string, 1)] pumpkinObject)
    as [_ Hfails].
  split.
  - destruct Hwrites as (trajectory' & Hset & Hin & _).
    { right. intros name Hname. cbn in Hname.
      now destruct Hname as [<- | [<- | [<- | [<- | [<- | [<- | [<- | []]]]]]]]. }
    exists trajectory'. split; [exact Hset|].
    split; apply Hin; cbn; tauto.
  - apply Hfails; [reflexivity|].
    exists "diameter"%string. split; [cbn; tauto | reflexivity].
Defined.

(** The pumpkin is saved and restored into the ball: the ball has the mass of
    the pumpkin and keeps its own rank. *)
Lemma save_and_restore_example :
  exists stateObject fromObject restored',
    toStateObject float float plainIO plainIO plainIO pumpkinObject
    = Normal stateObject
    /\ fromStateObject float float plainIO plainIO plainIO stateObject
       = Normal fromObject
    /\ setValue float true ballObject fromObject = Normal restored'
    /\ get restored' "mass" = Some 5
    /\ get restored' "rank" = Some 1.
Proof.
  destruct (save_and_restore float float plainIO plainIO plainIO true
              pumpkinObject ballObject
              plainIO_roundTrips plainIO_roundTrips plainIO_roundTrips)
    as (stateObject & fromObject & restored' & Hto & Hfrom & Hset & Hin & Hout).
  - intros name Hname. cbn in Hname.
    now destruct Hname as [<- | [<- | [<- | [<- | [<- | [<- | []]]]]]].
  - right. intros name Hname. cbn in Hname.
    now destruct Hname as [<- | [<- | [<- | [<- | [<- | [<- | []]]]]]].
  - exists stateObject, fromObject, restored'.
    split; [exact Hto|]. split; [exact Hfrom|]. split; [exact Hset|]. split.
    + rewrite Hin by (cbn; tauto). reflexivity.
    + rewrite Hout; [reflexivity|]. cbn.
      intros [H | [H | [H | [H | [H | [H | []]]]]]]; discriminate.
Defined.

End TrajectoryIOExamples.

(** ** The visibility of vectors: [VectorsVectorVisibilityProperties] *)
Module VectorsVisibilitySpec.
Import VectorsVectorVisibilityProperties.

Section Visibility.

Variable E : Type.
Variables TOTAL COMPONENTS : E.
Variable same : E -> E -> bool.

(** [===] tells whether two values of the enumeration are the same value, and
    the two values the source names are not. *)
Hypothesis same_spec : forall a b, same a b = true <-> a = b.
Hypothesis TOTAL_COMPONENTS : TOTAL <> COMPONENTS.

Local Abbreviation notify := (notify E TOTAL COMPONENTS same).
Local Abbreviation after := (after E TOTAL COMPONENTS same).
Local Abbreviation apply := (apply E TOTAL COMPONENTS same).
Local Abbreviation reset := (reset E TOTAL COMPONENTS same).
Local Abbreviation newObject := (new E TOTAL COMPONENTS same).

(** [linked this]: the six visibilities are what the listener makes them. *)
Local Abbreviation linked this := (notify this = this).

Lemma notify_notify (this : t E) : notify (notify this) = notify this.
Proof. reflexivity. Qed.

Lemma same_refl (a : E) : same a a = true.
Proof. now apply same_spec. Qed.

Lemma same_TOTAL_COMPONENTS : same TOTAL COMPONENTS = false.
Proof.
  destruct (same TOTAL COMPONENTS) eqn:H; trivial.
  now apply same_spec in H.
Qed.

Lemma reset_new (this : t E) : reset this = newObject.
Proof.
  destruct this as [tv cv ta ca tf cf v a f d].
  unfold VectorsVectorVisibilityProperties.reset,
    resetVectorVisibilityProperties.
  destruct v, a, f;
    unfold setVelocityVectorsOn, VectorsVectorVisibilityProperties.notify,
      updateVectorVisibilities;
    cbn -[setAccelerationVectorsOn setForceVectorsOn setVectorsDisplay];
    unfold setAccelerationVectorsOn, VectorsVectorVisibilityProperties.notify,
      updateVectorVisibilities;
    cbn -[setForceVectorsOn setVectorsDisplay];
    unfold setForceVectorsOn, VectorsVectorVisibilityProperties.notify,
      updateVectorVisibilities;
    cbn -[setVectorsDisplay];
    unfold setVectorsDisplay, VectorsVectorVisibilityProperties.new,
      VectorsVectorVisibilityProperties.notify, updateVectorVisibilities;
    cbn;
    (destruct (same TOTAL d) eqn:Hd;
     [apply same_spec in Hd; subst d|]; reflexivity).
Qed.

Lemma apply_linked (this : t E) (op : Op E) :
  linked this -> linked (apply this op).
Proof.
  intros Hlinked. destruct op as [value|value|value|value|];
    cbn [VectorsVectorVisibilityProperties.apply].
  - unfold setVelocityVectorsOn.
    now destruct (Bool.eqb value (velocityVectorsOnProperty E this)).
  - unfold setAccelerationVectorsOn.
    now destruct (Bool.eqb value (accelerationVectorsOnProperty E this)).
  - unfold setForceVectorsOn.
    now destruct (Bool.eqb value (forceVectorsOnProperty E this)).
  - unfold setVectorsDisplay.
    now destruct (same value (vectorsDisplayProperty E this)).
  - now rewrite reset_new.
Qed.

Lemma after_linked (ops : list (Op E)) : linked (after ops).
Proof.
  unfold VectorsVectorVisibilityProperties.after.
  assert (H : linked newObject) by reflexivity. revert H.
  generalize newObject.
  induction ops as [|op ops IH]; intros this Hlinked; cbn [fold_left];
    trivial.
  now apply IH, apply_linked.
Qed.

(** X16.  Whatever the controls have done since the construction, resets
    included, the six visibilities follow the four controls: a total vector
    is on exactly when its kind is on and total vectors are displayed, a
    components vector exactly when its kind is on and components are
    displayed.  So the total and the components of a kind are never on
    together, and neither is on when the kind is off. *)
Theorem visibilities_follow_controls (ops : list (Op E)) :
  let this := after ops in
  let displayTotal := same (vectorsDisplayProperty E this) TOTAL in
  let displayComponents := same (vectorsDisplayProperty E this) COMPONENTS in
  totalVelocityVectorOnProperty E this
  = velocityVectorsOnProperty E this && displayTotal
  /\ componentsVelocityVectorsOnProperty E this
     = velocityVectorsOnProperty E this && displayComponents
  /\ totalAccelerationVectorOnProperty E this
     = accelerationVectorsOnProperty E this && displayTotal
  /\ componentsAccelerationVectorsOnProperty E this
     = accelerationVectorsOnProperty E this && displayComponents
  /\ totalForceVectorOnProperty E this
     = forceVectorsOnProperty E this && displayTotal
  /\ componentsForceVectorsOnProperty E this
     = forceVectorsOnProperty E this && displayComponents
  /\ totalVelocityVectorOnProperty E this
     && componentsVelocityVectorsOnProperty E this = false
  /\ totalAccelerationVectorOnProperty E this
     && componentsAccelerationVectorsOnProperty E this = false
  /\ totalForceVectorOnProperty E this
     && componentsForceVectorsOnProperty E this = false.
Proof.
  intros this displayTotal displayComponents.
  pose proof (after_linked ops) as Hlinked. fold this in Hlinked.
  assert (Hdisplay : displayTotal && displayComponents = false).
  { subst displayTotal displayComponents.
    destruct (same (vectorsDisplayProperty E this) TOTAL) eqn:Ht; trivial.
    apply same_spec in Ht. rewrite Ht. apply same_TOTAL_COMPONENTS. }
  rewrite <- Hlinked. cbn. fold displayTotal displayComponents.
  repeat split;
    destruct (velocityVectorsOnProperty E this),
      (accelerationVectorsOnProperty E this),
      (forceVectorsOnProperty E this), displayTotal, displayComponents;
    trivial.
Qed.

(** X17.  [reset] gives the object back as it was constructed, whatever state
    it is in: the four controls at their first values and the six
    visibilities off. *)
Theorem reset_restores (this : t E) :
  reset this = newObject
  /\ velocityVectorsOnProperty E newObject = false
  /\ accelerationVectorsOnProperty E newObject = false
  /\ forceVectorsOnProperty E newObject = false
  /\ vectorsDisplayProperty E newObject = TOTAL
  /\ totalVelocityVectorOnProperty E newObject = false
  /\ componentsVelocityVectorsOnProperty E newObject = false
  /\ totalAccelerationVectorOnProperty E newObject = false
  /\ componentsAccelerationVectorsOnProperty E newObject = false
  /\ totalForceVectorOnProperty E newObject = false
  /\ componentsForceVectorsOnProperty E newObject = false.
Proof.
  split; [apply reset_new|]. cbn. repeat split.
Qed.

End Visibility.

End VectorsVisibilitySpec.

Module VectorsVisibilityExamples.
Import VectorsVectorVisibilityProperties VectorsVisibilitySpec.

Lemma same_spec (a b : Display.t) : Display.same a b = true <-> a = b.
Proof. destruct a, b; cbn; split; intros H; trivial; discriminate. Qed.

Lemma Total_Components : Display.Total <> Display.Components.
Proof. discriminate. Qed.

Lemma visibilities_follow_controls_example :
  let this :=
    after Display.t Display.Total Display.Components Display.same
      Display.controls in
  componentsForceVectorsOnProperty _ this = true
  /\ totalForceVectorOnProperty _ this = false
  /\ totalVelocityVectorOnProperty _ this
     && componentsVelocityVectorsOnProperty _ this = false.
Proof.
  intros this.
  pose proof (visibilities_follow_controls Display.t Display.Total
                Display.Components Display.same same_spec
                Total_Components Display.controls) as H.
  cbv zeta in H. fold this in H.
  destruct H as (_ & _ & _ & _ & Htotal & Hcomponents & Hvelocity & _).
  split; [rewrite Hcomponents; reflexivity|].
  split; [rewrite Htotal; reflexivity|exact Hvelocity].
Defined.

Lemma reset_restores_example :
  reset Display.t Display.Total Display.Components Display.same
    (after Display.t Display.Total Display.Components Display.same
       Display.controls)
  = new Display.t Display.Total Display.Components Display.same.
Proof.
  exact (proj1 (reset_restores Display.t Display.Total Display.Components
                  Display.same same_spec _)).
Defined.

End VectorsVisibilityExamples.
